(** * Backtest engine of MT5-Short--ST-TP: a shallow embedding of
    [src/backtest.py] (class [BackTest]) and the properties of its
    data-readiness logic, timeframe alignment and replay loop.

    Conventions of the embedding.
    - A timestamp is an integer number of seconds ([Z]); [timer.hour] and
      [timer.minute] are read off it, [timedelta(seconds=60)] adds 60.
    - A pandas [DataFrame] is its column names and its rows, every row
      carrying its index label; positional operations ([iloc], slices) and
      label operations ([index -= k]) are kept apart as pandas does.
    - Python dictionaries keyed by timeframe are [gmap string _]; Python sets
      are [gset _].
    - The directory [data_dir] is a finite map from file names to file
      contents; the logger and the [Trader] collaborator are observed through
      the trace of calls made to them.
    - Exceptions are values of [exn]; a computation is a function from the
      state to an outcome and a new state. *)

From stdpp Require Import base numbers list strings gmap sets pretty sorting.

Open Scope Z_scope.

(** ** Candles and data frames *)

Record Candle := mkCandle {
  open_time : Z;
  open_ : Z;
  high : Z;
  low : Z;
  close_ : Z;
  volume : Z
}.

#[global] Instance Candle_eq_dec : EqDecision Candle.
Proof. solve_decision. Defined.

(** A row is an index label and the candle stored under it. *)
Definition row : Type := Z * Candle.

Record DataFrame := mkDF {
  columns : list string;
  rows : list row
}.

#[global] Instance DataFrame_eq_dec : EqDecision DataFrame.
Proof. solve_decision. Defined.

(** The column contract, as written at lines 45 and 49 and again at 189-190. *)
Definition CANDLE_COLS : list string :=
  ["Open time"; "Open"; "High"; "Low"; "Close"; "Volume"]%string.

(** [pd.DataFrame(columns=cols)] *)
Definition empty_frame (cols : list string) : DataFrame := mkDF cols [].

(** [len(df)] *)
Definition df_len (df : DataFrame) : nat := length (rows df).

(** The ["Open time"] column, in row order. *)
Definition open_times (df : DataFrame) : list Z := (open_time ∘ snd) <$> rows df.

(** The index labels, in row order. *)
Definition index (df : DataFrame) : list Z := fst <$> rows df.

(** Attach the labels [k, k+1, ...] to a list of candles. *)
Fixpoint label_from (k : Z) (cs : list Candle) : list row :=
  match cs with
  | [] => []
  | c :: cs' => (k, c) :: label_from (k + 1) cs'
  end.

(** [df.reset_index(drop=True)] *)
Definition reset_index (df : DataFrame) : DataFrame :=
  mkDF (columns df) (label_from 0 (snd <$> rows df)).

(** Ordered union of column names, as [pd.concat] aligns columns. *)
Definition union_columns (acc cols : list string) : list string :=
  acc ++ filter (λ c, c ∉ acc) cols.

(** [pd.concat(frames, ignore_index=True)] *)
Definition concat (frames : list DataFrame) : DataFrame :=
  mkDF (foldl union_columns [] (columns <$> frames))
       (label_from 0 (snd <$> mjoin (rows <$> frames))).

(** Insertion of one row in a list ordered by ["Open time"], before the
    first row whose time is not smaller: the row inserted comes first among
    the rows of its time. *)
Fixpoint insert_row (r : row) (l : list row) : list row :=
  match l with
  | [] => [r]
  | r' :: l' =>
      if open_time (snd r') <? open_time (snd r)
      then r' :: insert_row r l'
      else r :: r' :: l'
  end.

(** Insertion sort from the right: every row is inserted into the sorted rest
    of the frame, ahead of the rows of the same time, which all came after it. *)

Fixpoint sort_rows (l : list row) : list row :=
  match l with
  | [] => []
  | r :: l' => insert_row r (sort_rows l')
  end.

(** [df.sort_values("Open time")]: rows travel with their labels. pandas leaves
    the order of rows with equal keys to the sorting algorithm; the embedding
    fixes it by taking the stable ordering, in which rows of equal time keep
    the order they had in the frame. *)
Definition sort_values (df : DataFrame) : DataFrame :=
  mkDF (columns df) (sort_rows (rows df)).

(** [df[df["Open time"] <= t]] and [df[df["Open time"] > t]] *)
Definition mask_le (t : Z) (df : DataFrame) : DataFrame :=
  mkDF (columns df) (filter (λ r : row, open_time (snd r) ≤ t) (rows df)).

Definition mask_gt (t : Z) (df : DataFrame) : DataFrame :=
  mkDF (columns df) (filter (λ r : row, t < open_time (snd r)) (rows df)).

(** Python's positional slice [l[-n:]]: [-0] is [0], so [n = 0] keeps all. *)
Definition py_last {A} (n : nat) (l : list A) : list A :=
  match n with
  | O => l
  | _ => drop (length l - n)%nat l
  end.

(** [df[-n:]], [df[:1]], [df[1:]] *)
Definition tail_rows (n : nat) (df : DataFrame) : DataFrame :=
  mkDF (columns df) (py_last n (rows df)).

Definition head1 (df : DataFrame) : DataFrame :=
  mkDF (columns df) (take 1 (rows df)).

Definition tail1 (df : DataFrame) : DataFrame :=
  mkDF (columns df) (drop 1 (rows df)).

(** [df.index -= k] *)
Definition shift_index (k : Z) (df : DataFrame) : DataFrame :=
  mkDF (columns df) ((λ r : row, (fst r - k, snd r)) <$> rows df).

(** Python's positional indexing [l[i]] with negative indices counted from the
    end; [None] stands for [IndexError]. *)
Definition py_nth {A} (i : Z) (l : list A) : option A :=
  if decide (0 ≤ i) then l !! Z.to_nat i
  else if decide (- Z.of_nat (length l) ≤ i) then l !! Z.to_nat (Z.of_nat (length l) + i)
  else None.

(** ** Configuration *)

(** One strategy entry; [tfs_tf] is [strategy["tfs"].get("tf")]. *)
Record strategy := mkStrategy { tfs_tf : option string }.

Record symbol_cfg := mkCfg {
  symbol : string;
  year : Z;
  months : list Z;
  strategies : list strategy
}.

#[global] Instance strategy_eq_dec : EqDecision strategy.
Proof. solve_decision. Defined.

#[global] Instance symbol_cfg_eq_dec : EqDecision symbol_cfg.
Proof. solve_decision. Defined.

(** A required file: [(symbol, interval, year, month)]. *)
Definition RequiredFile : Type := string * string * Z * Z.

(** ["{:02d}".format(m)] *)
Definition fmt_02d (m : Z) : string :=
  if decide (0 ≤ m < 10) then ("0" +:+ pretty m)%string else pretty m.

(** ["{}-{}-{}-{:02d}.csv".format(symbol, interval, year, month)]: the name of
    the file inside [data_dir]. *)
Definition csv_name (sym interval : string) (y m : Z) : string :=
  (sym +:+ "-" +:+ interval +:+ "-" +:+ pretty y +:+ "-" +:+ fmt_02d m +:+ ".csv")%string.

(** ** Files *)

(** The content of one CSV file: [CsvBlank] has no header line at all (zero
    bytes, or white space only); [CsvTable h rs] has the header [h] and the
    records [rs], possibly none. The header is kept as written: it need not
    name the column ["Open time"]. The records are held as candles, the time
    of a record being the instant its time cell denotes: a file with a cell
    that denotes no instant or no number is not among these contents. *)
Inductive csv_file :=
  | CsvBlank
  | CsvTable (header : list string) (records : list Candle).

#[global] Instance csv_file_eq_dec : EqDecision csv_file.
Proof. solve_decision. Defined.

(** The column read at line 50 of [src/backtest.py]. *)
Definition OPEN_TIME : string := "Open time".


Example csv_name_ex : csv_name "EURUSD" "1m" 2024 3 = "EURUSD-1m-2024-03.csv"%string.
Proof. vm_compute. reflexivity. Qed.

(** ** Logger messages, exceptions and the trace of observable calls *)

Inductive level := INFO | WARNING | ERROR.

(** One constructor per message text of [src/backtest.py], with the values
    that are formatted into it. *)
Inductive message :=
  | MsgDataFileNotFound (path : string)
  | MsgEmptyDataFile (path : string)
  | MsgNoDataFound (sym tf : string) (ms : list Z)
  | MsgNoDataAvailable (sym tf : string)
  | MsgInsufficientFound (sym tf : string) (found need : nat)
  | MsgDownloadMore
  | MsgNeed1m (need : nat)
  | MsgNeed5m (need : nat)
  | MsgInsufficientData (sym tf : string) (need found : nat)
  | MsgMaxEmpty
  | MsgStartTimer (timer end_time : Z)
  | MsgChecking
  | MsgAllExist
  | MsgMissing (n : nat)
  | MsgCannotDownload
  | MsgProvideExchCfg
  | MsgNoExchCfg
  | MsgMt5CfgNotFound
  | MsgMt5InitFailed
  | MsgMt5LoginOk
  | MsgMt5NoAccountInfo
  | MsgMt5LoginFailed
  | MsgDownloading
  | MsgOutputDir
  | MsgDownloadingFor (sym : string) (n : nat)
  | MsgDownloadComplete (successful total : nat)
  | MsgUnsupportedInterval (interval : string)
  | MsgNoRates (sym interval : string) (y m : Z)
  | MsgDownloaded (name : string) (bars : nat)
  | MsgDownloadError (sym interval : string) (y m : Z)
  | MsgInvalidDate (y m : Z)
  | MsgEnsureFailed
  | MsgStartBacktesting
  | MsgBacktestBot (sym : string)
  | MsgBacktestingFinished.

Inductive exn :=
  | ValueError (m : message)
  | EmptyDataError (path : string)
  | IndexError
  | KeyError (k : string).

(** The error that loading a file at [path] ends with, if any: a file without
    header line makes [pd.read_csv] raise [EmptyDataError]; a table with
    records whose header lacks ["Open time"] makes [df["Open time"]] raise
    [KeyError]; a table without records is never asked for the column. *)
Definition file_error (path : string) (f : csv_file) : option exn :=
  match f with
  | CsvBlank => Some (EmptyDataError path)
  | CsvTable h [] => None
  | CsvTable h (_ :: _) =>
      if decide (OPEN_TIME ∈ h) then None else Some (KeyError OPEN_TIME)
  end.

(** What the logger, the [Trader] collaborator and the download routine see,
    in the order of the calls. *)
Inductive event :=
  | Log (l : level) (m : message)
  | TraderNew (cfg : symbol_cfg)
  | TraderInitStrategies
  | TraderInitChart (init : gmap string DataFrame)
  | TraderAttachOms
  | TraderOnKline (tf : string) (kline : DataFrame)
  | DownloadMonthly (sym interval : string) (m y : Z)
  | Mt5Shutdown.

(** The handle returned by [Trader(symbol_cfg)]. *)
Record Trader := mkTrader { trader_cfg : symbol_cfg }.

(** ** The computation monad: storage as state, calls as output, exceptions *)

Inductive outcome (A : Type) :=
  | Ok (a : A)
  | Raise (e : exn)
  | OutOfFuel.
Arguments Ok {A} a.
Arguments Raise {A} e.
Arguments OutOfFuel {A}.

Definition Storage : Type := gmap string csv_file.

Record run (A : Type) := mkRun {
  result : outcome A;
  store : gmap string csv_file;
  trace : list event
}.
Arguments mkRun {A} _ _ _.
Arguments result {A} _.
Arguments store {A} _.
Arguments trace {A} _.

Definition M (A : Type) : Type := gmap string csv_file → run A.

Definition ret {A} (a : A) : M A := λ s, mkRun (Ok a) s [].

Definition bind {A B} (m : M A) (f : A → M B) : M B := λ s,
  let r := m s in
  match result r with
  | Ok a => let r' := f a (store r) in
            mkRun (result r') (store r') (trace r ++ trace r')
  | Raise e => mkRun (Raise e) (store r) (trace r)
  | OutOfFuel => mkRun OutOfFuel (store r) (trace r)
  end.

Definition raise {A} (e : exn) : M A := λ s, mkRun (Raise e) s [].
Definition out_of_fuel {A} : M A := λ s, mkRun OutOfFuel s [].
Definition emit (e : event) : M unit := λ s, mkRun (Ok tt) s [e].
Definition log (l : level) (m : message) : M unit := emit (Log l m).
Definition get_store : M (gmap string csv_file) := λ s, mkRun (Ok s) s [].
Definition put_file (name : string) (f : csv_file) : M unit :=
  λ s, mkRun (Ok tt) (<[name := f]> s) [].

Declare Scope run_scope.
Delimit Scope run_scope with run.
Notation "x <~ c ;; k" := (bind c (λ x, k))
  (at level 100, c at next level, right associativity) : run_scope.
Notation "c ;;; k" := (bind c (λ _, k))
  (at level 100, right associativity) : run_scope.
Open Scope run_scope.

(** A [for] loop with an accumulator. *)
Fixpoint for_each {A B} (l : list A) (acc : B) (body : B → A → M B) : M B :=
  match l with
  | [] => ret acc
  | x :: l' => acc' <~ body acc x ;; for_each l' acc' body
  end.

(** Lifting a pure partial result. *)
Definition lift {A} (o : option A) (e : exn) : M A :=
  match o with Some a => ret a | None => raise e end.

(** ** The calendar of [datetime] *)

Definition is_leap (y : Z) : bool :=
  (y mod 4 =? 0) && (negb (y mod 100 =? 0) || (y mod 400 =? 0)).

(** [calendar.monthrange(y, m)[1]] *)
Definition days_in_month (y m : Z) : Z :=
  if m =? 2 then (if is_leap y then 29 else 28)
  else if (m =? 4) || (m =? 6) || (m =? 9) || (m =? 11) then 30 else 31.

Definition days_before_year (y : Z) : Z :=
  let p := y - 1 in p * 365 + p / 4 - p / 100 + p / 400.

Fixpoint days_before_month_aux (y : Z) (k : nat) : Z :=
  match k with
  | O => 0
  | S k' => days_before_month_aux y k' + days_in_month y (Z.of_nat k)
  end.

Definition days_before_month (y m : Z) : Z := days_before_month_aux y (Z.to_nat (m - 1)).

(** [datetime(y, m, d, hh, mm, ss).replace(tzinfo=timezone.utc).timestamp()];
    [None] is the [ValueError] of the constructor for a year outside 1..9999,
    a month outside 1..12 or a day outside the month. *)
Definition utc_timestamp (y m d hh mm ss : Z) : option Z :=
  if decide (1 ≤ y ≤ 9999 ∧ 1 ≤ m ≤ 12 ∧ 1 ≤ d ≤ days_in_month y m) then
    Some ((days_before_year y + days_before_month y m + d - 719163) * 86400
          + hh * 3600 + mm * 60 + ss)
  else None.

Example utc_timestamp_ex : utc_timestamp 2024 3 1 0 0 0 = Some 1709251200.
Proof. reflexivity. Qed.

(** [timer.hour] and [timer.minute] *)
Definition hour_of (t : Z) : Z := (t / 3600) mod 24.
Definition minute_of (t : Z) : Z := (t / 60) mod 60.

(** ** The MetaTrader 5 terminal *)

Inductive mt5_timeframe :=
  | TIMEFRAME_M1 | TIMEFRAME_M5 | TIMEFRAME_M15 | TIMEFRAME_M30
  | TIMEFRAME_H1 | TIMEFRAME_H4 | TIMEFRAME_D1 | TIMEFRAME_W1 | TIMEFRAME_MN1.

(** [TIMEFRAME_MAP.get(interval)] *)
Definition TIMEFRAME_MAP (interval : string) : option mt5_timeframe :=
  if decide (interval = "1m"%string) then Some TIMEFRAME_M1
  else if decide (interval = "5m"%string) then Some TIMEFRAME_M5
  else if decide (interval = "15m"%string) then Some TIMEFRAME_M15
  else if decide (interval = "30m"%string) then Some TIMEFRAME_M30
  else if decide (interval = "1h"%string) then Some TIMEFRAME_H1
  else if decide (interval = "4h"%string) then Some TIMEFRAME_H4
  else if decide (interval = "1d"%string) then Some TIMEFRAME_D1
  else if decide (interval = "1w"%string) then Some TIMEFRAME_W1
  else if decide (interval = "1mn"%string) then Some TIMEFRAME_MN1
  else None.

(** One record of [mt5.copy_rates_range]. *)
Record rate := mkRate {
  r_time : Z; r_open : Z; r_high : Z; r_low : Z; r_close : Z;
  r_tick_volume : Z; r_spread : Z; r_real_volume : Z
}.

(** What [mt5.copy_rates_range] can do: return [None], return an array, or
    raise. *)
Inductive rates_result :=
  | RatesNone
  | Rates (rs : list rate)
  | RatesRaise.

Record mt5_config := mkMt5Config { account : Z; server : string }.

(** The parsed exchange configuration: its ["mt5"] entry, if any. *)
Record exchange_configs := mkExch { mt5_entry : option mt5_config }.

(** A firing rule of [tf_cron]: the ["hour"] and ["minute"] entries, each
    possibly absent. *)
Record cron_time := mkCron {
  cron_hour : option (list Z);
  cron_minute : option (list Z)
}.

(** ** Class [BackTest] *)

Section BackTest.

(** Names imported from [utils] and [trader], which are not among the
    sources at hand: the warm-up constant, the firing rules in the order of
    the dictionary, and the answer of [Trader.get_required_tfs]. *)
Variable NUM_KLINE_INIT : nat.
Variable tf_cron : list (string * cron_time).
Variable get_required_tfs : symbol_cfg → list string.

(** The MetaTrader 5 terminal and the local time zone offset. *)
Variable mt5_initialize : bool.
Variable mt5_login : Z → string → bool.
Variable mt5_account_info : bool.
Variable mt5_copy_rates_range : string → mt5_timeframe → Z → Z → rates_result.
Variable time_timezone : Z.

(** The fields of [self]: the parsed content of [symbols_trading_cfg_file]
    and, when a path was given, of [exchange_config_file]. *)
Variable symbols_config : list symbol_cfg.
Variable exchange_config_file : option exchange_configs.

(** *** Monthly data store (lines 41-54) *)

(** [pd.read_csv(path)]: a file with no header line makes pandas raise
    [EmptyDataError]; otherwise the header names the columns and the records
    are labelled from zero. *)
Definition read_csv (path : string) (f : csv_file) : M DataFrame :=
  match f with
  | CsvBlank => raise (EmptyDataError path)
  | CsvTable h rs => ret (mkDF h (label_from 0 rs))
  end.

Definition load_mt5_klines_monthly_data (sym interval : string) (month yr : Z)
  : M DataFrame :=
  let csv_data_path := csv_name sym interval yr month in
  s <~ get_store ;;
  match s !! csv_data_path with
  | None =>
      log WARNING (MsgDataFileNotFound csv_data_path) ;;;
      ret (empty_frame CANDLE_COLS)
  | Some f =>
      df <~ read_csv csv_data_path f ;;
      if decide (df_len df = 0%nat) then
        log WARNING (MsgEmptyDataFile csv_data_path) ;;;
        ret (empty_frame CANDLE_COLS)
      else
        (* line 50: [df["Open time"]] of a frame without that column raises;
           [pd.to_datetime] then turns the cells into the instants they
           denote, which is how the records of a table are held *)
        if decide (OPEN_TIME ∈ columns df) then ret df
        else raise (KeyError OPEN_TIME)
  end.

Definition load_klines_monthly_data := load_mt5_klines_monthly_data.

(** *** Requirement resolver (lines 56-80) *)

(** The inner loop over strategies: [if tf: intervals.add(tf)]; an absent
    or empty [tf] is falsy. *)
Definition add_interval (intervals : gset string) (st : strategy) : gset string :=
  match tfs_tf st with
  | Some tf => if decide (tf = ""%string) then intervals else intervals ∪ {[ tf ]}
  | None => intervals
  end.

Definition intervals_of (cfg : symbol_cfg) : gset string :=
  foldl add_interval ∅ (strategies cfg).

(** The two nested loops that add the files of one symbol entry. *)
Definition add_symbol_files (required_files : gset RequiredFile) (cfg : symbol_cfg)
  : gset RequiredFile :=
  foldl (λ acc interval,
           foldl (λ acc' month, acc' ∪ {[ (symbol cfg, interval, year cfg, month) ]})
                 acc (months cfg))
        required_files (elements (intervals_of cfg)).

Definition required_files_of (cfgs : list symbol_cfg) : gset RequiredFile :=
  foldl add_symbol_files ∅ cfgs.

Definition get_required_data_files : gset RequiredFile :=
  required_files_of symbols_config.

(** *** Data provisioner (lines 82-226) *)

Definition file_name (f : RequiredFile) : string :=
  match f with (sym, interval, y, m) => csv_name sym interval y m end.

Definition check_data_files_exist : M (bool * list RequiredFile) :=
  s <~ get_store ;;
  let missing_files :=
    filter (λ f, s !! file_name f = None) (elements get_required_data_files) in
  ret (bool_decide (length missing_files = 0%nat), missing_files).

Definition initialize_mt5 (cfg : mt5_config) : M bool :=
  if negb mt5_initialize then log ERROR MsgMt5InitFailed ;;; ret false
  else if mt5_login (account cfg) (server cfg) then
    if mt5_account_info then log INFO MsgMt5LoginOk ;;; ret true
    else log ERROR MsgMt5NoAccountInfo ;;; ret false
  else log ERROR MsgMt5LoginFailed ;;; ret false.

(** The frame written to disk: [time] shifted by [-time.timezone], the
    eight columns renamed and the first six kept. *)
Definition candle_of_rate (r : rate) : Candle :=
  mkCandle (r_time r + - time_timezone) (r_open r) (r_high r) (r_low r)
           (r_close r) (r_tick_volume r).

(** [_download_monthly_data]; the two [datetime(...)] constructions stand
    before the [try] and their [ValueError] escapes, everything raised by the
    terminal inside the [try] is turned into [False]. Writing the file is
    taken to succeed. *)
Definition download_monthly_data (sym interval : string) (month yr : Z) : M bool :=
  emit (DownloadMonthly sym interval month yr) ;;;
  match TIMEFRAME_MAP interval with
  | None => log ERROR (MsgUnsupportedInterval interval) ;;; ret false
  | Some tf =>
      from_date <~ lift (utc_timestamp yr month 1 0 0 0)
                        (ValueError (MsgInvalidDate yr month)) ;;
      let last_day := days_in_month yr month in
      to_date <~ lift (utc_timestamp yr month last_day 23 59 59)
                      (ValueError (MsgInvalidDate yr month)) ;;
      match mt5_copy_rates_range sym tf from_date to_date with
      | RatesRaise => log ERROR (MsgDownloadError sym interval yr month) ;;; ret false
      | RatesNone => log WARNING (MsgNoRates sym interval yr month) ;;; ret false
      | Rates rs =>
          if decide (length rs = 0%nat) then
            log WARNING (MsgNoRates sym interval yr month) ;;; ret false
          else
            let filename := csv_name sym interval yr month in
            put_file filename (CsvTable CANDLE_COLS (candle_of_rate <$> rs)) ;;;
            log INFO (MsgDownloaded filename (length rs)) ;;;
            ret true
      end
  end.

(** [files_by_symbol]: a dictionary in insertion order, each symbol with the
    list of its missing [(interval, year, month)]. *)
Fixpoint group_add (sym : string) (x : string * Z * Z)
    (groups : list (string * list (string * Z * Z))) :=
  match groups with
  | [] => [(sym, [x])]
  | (s, l) :: g =>
      if decide (s = sym) then (s, l ++ [x]) :: g
      else (s, l) :: group_add sym x g
  end.

Definition group_by_symbol (missing_files : list RequiredFile) :=
  foldl (λ groups (f : RequiredFile),
           match f with (sym, interval, y, m) => group_add sym (interval, y, m) groups end)
        [] missing_files.

(** The bodies of the two nested loops at lines 149-154. *)
Definition download_file (sym : string) (successful : nat) (f : string * Z * Z) : M nat :=
  let '(interval, y, m) := f in
  b <~ download_monthly_data sym interval m y ;;
  ret (if (b : bool) then S successful else successful).

Definition download_symbol (successful : nat) (g : string * list (string * Z * Z))
  : M nat :=
  let '(sym, file_list) := g in
  log INFO (MsgDownloadingFor sym (length file_list)) ;;;
  for_each file_list successful (download_file sym).

Definition download_missing_data (missing_files : list RequiredFile) : M bool :=
  match exchange_config_file with
  | None => log ERROR MsgNoExchCfg ;;; ret false
  | Some exchange_cfgs =>
      match mt5_entry exchange_cfgs with
      | None => log ERROR MsgMt5CfgNotFound ;;; ret false
      | Some mt5_cfg =>
          ok <~ initialize_mt5 mt5_cfg ;;
          if negb ok then ret false
          else
            log INFO MsgDownloading ;;;
            log INFO MsgOutputDir ;;;
            let total := length missing_files in
            successful <~
              for_each (group_by_symbol missing_files) 0%nat download_symbol ;;
            log INFO (MsgDownloadComplete successful total) ;;;
            emit Mt5Shutdown ;;;
            ret (bool_decide (successful = total))
      end
  end.

Definition ensure_data_files : M bool :=
  log INFO MsgChecking ;;;
  chk <~ check_data_files_exist ;;
  let '(all_exist, missing_files) := chk in
  if (all_exist : bool) then log INFO MsgAllExist ;;; ret true
  else
    log INFO (MsgMissing (length missing_files)) ;;;
    match exchange_config_file with
    | None =>
        log ERROR MsgCannotDownload ;;;
        log ERROR MsgProvideExchCfg ;;;
        ret false
    | Some _ => download_missing_data missing_files
    end.

(** *** Timeframe alignment and replay (lines 228-313) *)

(** [max(xs)]; [None] is the [ValueError] of an empty argument. *)
Definition py_max (xs : list Z) : option Z :=
  match xs with
  | [] => None
  | x :: xs' => Some (foldl Z.max x xs')
  end.

(** [df.iloc[i]["Open time"]] *)
Definition iloc_open_time (i : Z) (df : DataFrame) : option Z :=
  (open_time ∘ snd) <$> py_nth i (rows df).

(** [dict.values()] *)
Definition values (m : gmap string DataFrame) : list DataFrame := (map_to_list m).*2.

(** The loop over [sorted(symbol_cfg["months"])] at lines 234-238. *)
Definition load_months (cfg : symbol_cfg) (tf : string) : M (list DataFrame) :=
  for_each (merge_sort Z.le (months cfg)) []
    (λ monthly_data month,
       month_data <~ load_klines_monthly_data (symbol cfg) tf month (year cfg) ;;
       ret (if decide (0 < df_len month_data)%nat
            then monthly_data ++ [month_data] else monthly_data)).

(** The body of the loop over the required timeframes, lines 233-281. *)
Definition load_chart (cfg : symbol_cfg) (tfs_chart : gmap string DataFrame)
    (tf : string) : M (gmap string DataFrame) :=
  monthly_data <~ load_months cfg tf ;;
  if decide (length monthly_data = 0%nat) then
    log ERROR (MsgNoDataFound (symbol cfg) tf (months cfg)) ;;;
    raise (ValueError (MsgNoDataAvailable (symbol cfg) tf))
  else
    let chart_df := reset_index (sort_values (concat monthly_data)) in
    let tfs_chart := <[tf := chart_df]> tfs_chart in
    if decide (df_len chart_df < NUM_KLINE_INIT)%nat then
      log ERROR (MsgInsufficientFound (symbol cfg) tf (df_len chart_df) NUM_KLINE_INIT) ;;;
      log ERROR MsgDownloadMore ;;;
      log ERROR (MsgNeed1m NUM_KLINE_INIT) ;;;
      log ERROR (MsgNeed5m NUM_KLINE_INIT) ;;;
      raise (ValueError (MsgInsufficientData (symbol cfg) tf NUM_KLINE_INIT (df_len chart_df)))
    else ret tfs_chart.

Definition load_charts (cfg : symbol_cfg) : M (gmap string DataFrame) :=
  for_each (get_required_tfs cfg) ∅ (load_chart cfg).

(** Lines 282-283. *)
Definition max_time_of (tfs_chart : gmap string DataFrame) : M Z :=
  times <~ lift (mapM (iloc_open_time (Z.of_nat NUM_KLINE_INIT - 1)) (values tfs_chart))
                IndexError ;;
  lift (py_max times) (ValueError MsgMaxEmpty).

Definition end_time_of (tfs_chart : gmap string DataFrame) : M Z :=
  times <~ lift (mapM (iloc_open_time (-1)) (values tfs_chart)) IndexError ;;
  lift (py_max times) (ValueError MsgMaxEmpty).

(** The two slices of one timeframe before re-indexing, lines 286-287. *)
Definition init_slice (max_time : Z) (tf_chart : DataFrame) : DataFrame :=
  tail_rows NUM_KLINE_INIT (mask_le max_time tf_chart).

Definition replay_slice (max_time : Z) (tf_chart : DataFrame) : DataFrame :=
  mask_gt max_time tf_chart.

(** The body of the loop at lines 285-290; [index[0]] of an empty frame is
    an [IndexError]. *)
Definition split_chart (max_time : Z)
    (acc : gmap string DataFrame * gmap string DataFrame)
    (item : string * DataFrame)
  : M (gmap string DataFrame * gmap string DataFrame) :=
  let '(tfs_chart_init, tfs_chart) := acc in
  let '(tf, tf_chart) := item in
  let init_tf := init_slice max_time tf_chart in
  let replay_tf := replay_slice max_time tf_chart in
  start_index <~ lift (head (index init_tf)) IndexError ;;
  ret (<[tf := shift_index start_index init_tf]> tfs_chart_init,
       <[tf := shift_index start_index replay_tf]> tfs_chart).

(** The outcome of alignment: the alignment instant, the terminal bound and
    the two dictionaries. *)
Record aligned := mkAligned {
  al_max_time : Z;
  al_end_time : Z;
  al_init : gmap string DataFrame;
  al_replay : gmap string DataFrame
}.

Definition align (tfs_chart : gmap string DataFrame) : M aligned :=
  max_time <~ max_time_of tfs_chart ;;
  end_time <~ end_time_of tfs_chart ;;
  split <~ for_each (map_to_list tfs_chart) (∅, tfs_chart) (split_chart max_time) ;;
  ret (mkAligned max_time end_time split.1 split.2).

(** [tf_cron[tf]] and [tf_cron.keys()] *)
Fixpoint cron_lookup (d : list (string * cron_time)) (tf : string) : option cron_time :=
  match d with
  | [] => None
  | (k, c) :: d' => if decide (k = tf) then Some c else cron_lookup d' tf
  end.

(** The condition at lines 304-306. *)
Definition fires (c : cron_time) (hour minute : Z) : bool :=
  match cron_hour c with None => true | Some hs => bool_decide (hour ∈ hs) end
  && match cron_minute c with None => true | Some ms => bool_decide (minute ∈ ms) end.

(** Line 297. *)
Definition required_tfs (cfg : symbol_cfg) : list string :=
  filter (λ tf, tf ∈ get_required_tfs cfg) (tf_cron.*1).

(** The body of the [for] at lines 302-309 for one timeframe. *)
Definition fire_tf (timer : Z) (tfs_chart : gmap string DataFrame) (tf : string)
  : M (gmap string DataFrame) :=
  cron <~ lift (cron_lookup tf_cron tf) (KeyError tf) ;;
  if fires cron (hour_of timer) (minute_of timer) then
    tf_chart <~ lift (tfs_chart !! tf) (KeyError tf) ;;
    let last_kline := head1 tf_chart in
    let tfs_chart := <[tf := tail1 tf_chart]> tfs_chart in
    emit (TraderOnKline tf last_kline) ;;;
    ret tfs_chart
  else ret tfs_chart.

(** The [while] at lines 299-309; the recursion is on a bound for the
    number of iterations, the test of the loop is the one of the source. *)
Fixpoint replay_loop (fuel : nat) (tfs : list string) (timer end_time : Z)
    (tfs_chart : gmap string DataFrame) : M (gmap string DataFrame) :=
  if decide (timer ≤ end_time) then
    match fuel with
    | O => out_of_fuel
    | S fuel' =>
        let timer := timer + 60 in
        tfs_chart' <~ for_each tfs tfs_chart (fire_tf timer) ;;
        replay_loop fuel' tfs timer end_time tfs_chart'
    end
  else ret tfs_chart.

(** A bound for the number of iterations of the loop from [timer]. *)
Definition replay_fuel (timer end_time : Z) : nat :=
  Z.to_nat ((end_time - timer) / 60 + 1).

Definition backtest_bot_trader (cfg : symbol_cfg) : M Trader :=
  let bot_trader := mkTrader cfg in
  emit (TraderNew cfg) ;;;
  emit TraderInitStrategies ;;;
  tfs_chart <~ load_charts cfg ;;
  al <~ align tfs_chart ;;
  emit (TraderInitChart (al_init al)) ;;;
  emit TraderAttachOms ;;;
  let timer := al_max_time al in
  let end_time := al_end_time al in
  log INFO (MsgStartTimer timer end_time) ;;;
  replay_loop (replay_fuel timer end_time) (required_tfs cfg) timer end_time
              (al_replay al) ;;;
  ret bot_trader.

(** *** [start] (lines 315-332) *)

Fixpoint start_loop (cfgs : list symbol_cfg) (c : nat) (bot_traders : list Trader)
  : M (list Trader) :=
  match cfgs with
  | [] => ret bot_traders
  | cfg :: cfgs' =>
      log INFO (MsgBacktestBot (symbol cfg)) ;;;
      bot_trader <~ backtest_bot_trader cfg ;;
      let bot_traders := bot_traders ++ [bot_trader] in
      let c := S c in
      if decide (2 ≤ c)%nat then ret bot_traders
      else start_loop cfgs' c bot_traders
  end.

(** [start]; the value is [self.bot_traders] when it returns. *)
Definition start : M (list Trader) :=
  ok <~ ensure_data_files ;;
  if negb ok then log ERROR MsgEnsureFailed ;;; ret []
  else
    log INFO MsgStartBacktesting ;;;
    bot_traders <~ start_loop symbols_config 0%nat [] ;;
    log INFO MsgBacktestingFinished ;;;
    ret bot_traders.

End BackTest.

(** ** Observations on a trace *)

(** The fetch attempts, as the tuples handed to the download routine. *)
Definition fetch_of (e : event) : option RequiredFile :=
  match e with
  | DownloadMonthly sym interval m y => Some (sym, interval, y, m)
  | _ => None
  end.

Definition fetches (tr : list event) : list RequiredFile := omap fetch_of tr.

(** The rows handed to [on_kline] for one timeframe, in order of delivery. *)
Definition delivery_of (tf : string) (e : event) : list row :=
  match e with
  | TraderOnKline tf' kline => if decide (tf' = tf) then rows kline else []
  | _ => []
  end.

Definition delivered (tf : string) (tr : list event) : list row :=
  mjoin (delivery_of tf <$> tr).

(** The symbol entries for which a [Trader] was built. *)
Definition backtested_of (e : event) : option symbol_cfg :=
  match e with TraderNew cfg => Some cfg | _ => None end.

Definition backtested (tr : list event) : list symbol_cfg := omap backtested_of tr.

Definition is_log (e : event) : Prop :=
  match e with Log _ _ => True | _ => False end.

(** A call that hands candles to the strategy collaborator. *)
Definition is_delivery (e : event) : Prop :=
  match e with TraderInitChart _ | TraderOnKline _ _ => True | _ => False end.

Definition is_on_kline_of (tfs : list string) (e : event) : Prop :=
  match e with TraderOnKline tf _ => tf ∈ tfs | _ => False end.

(** ** The requirement resolver in the words of the specification *)

(** The timeframe a strategy names, if it names one. *)
Definition named_tf (st : strategy) : option string :=
  match tfs_tf st with
  | Some tf => if decide (tf = ""%string) then None else Some tf
  | None => None
  end.

(** The distinct timeframes named by the strategies of a symbol entry. *)
Definition named_timeframes (cfg : symbol_cfg) : gset string :=
  list_to_set (omap named_tf (strategies cfg)).

(** The cartesian product of the distinct timeframes with the months, tagged
    with the symbol and the year. *)
Definition product_list (cfg : symbol_cfg) : list RequiredFile :=
  (λ p : string * Z, (symbol cfg, p.1, year cfg, p.2))
    <$> cprod (elements (named_timeframes cfg)) (months cfg).

Definition symbol_product (cfg : symbol_cfg) : gset RequiredFile :=
  list_to_set (product_list cfg).

(** Two symbol entries that differ at most in the order and the repetition of
    their strategies' timeframes. *)
Definition same_entry (cfg cfg' : symbol_cfg) : Prop :=
  symbol cfg = symbol cfg' ∧ year cfg = year cfg' ∧ months cfg = months cfg' ∧
  ∀ tf, (∃ st, st ∈ strategies cfg ∧ named_tf st = Some tf)
      ↔ (∃ st, st ∈ strategies cfg' ∧ named_tf st = Some tf).

(** ** Sample data used to exercise the definitions *)

Definition candle_at (t : Z) : Candle := mkCandle t 100 110 90 105 7.

Definition cron_1m_1h : list (string * cron_time) :=
  [("1m"%string, mkCron None None); ("1h"%string, mkCron None (Some [0]))].

Definition cfg_1m : symbol_cfg :=
  mkCfg "EURUSD" 2024 [1] [mkStrategy (Some "1m"%string)].

Definition cfg_1m_dup : symbol_cfg :=
  mkCfg "EURUSD" 2024 [1]
        [mkStrategy (Some "1m"%string); mkStrategy None; mkStrategy (Some "1m"%string)].

Definition cfg_1h : symbol_cfg :=
  mkCfg "EURUSD" 2024 [1] [mkStrategy (Some "1h"%string)].

Definition cfg_two_tfs : symbol_cfg :=
  mkCfg "XAUUSD" 2024 [1; 2]
        [mkStrategy (Some "1m"%string); mkStrategy (Some "1h"%string);
         mkStrategy (Some "1m"%string)].

Definition cfg_gbp : symbol_cfg :=
  mkCfg "GBPUSD" 2024 [1] [mkStrategy (Some "1m"%string)].

Definition cfg_three : list symbol_cfg :=
  [cfg_1m; cfg_gbp; mkCfg "USDJPY" 2024 [1] [mkStrategy (Some "1m"%string)]].

Definition cfg_4h : symbol_cfg :=
  mkCfg "EURUSD" 2024 [1] [mkStrategy (Some "4h"%string)].

(** The answer of a trader that requires the timeframes its strategies name. *)
Definition tfs_of_strategies (cfg : symbol_cfg) : list string :=
  elements (named_timeframes cfg).

(** One month of three one-minute candles for [EURUSD]. *)
Definition store_1m : gmap string csv_file :=
  {[ "EURUSD-1m-2024-01.csv"%string :=
       CsvTable CANDLE_COLS [candle_at 0; candle_at 60; candle_at 120] ]}.

(** One month of three hourly candles for [EURUSD]. *)
Definition store_1h : gmap string csv_file :=
  {[ "EURUSD-1h-2024-01.csv"%string :=
       CsvTable CANDLE_COLS [candle_at 0; candle_at 3600; candle_at 7200] ]}.

(** One month of three four-hour candles for [EURUSD]. *)
Definition store_4h : gmap string csv_file :=
  {[ "EURUSD-4h-2024-01.csv"%string :=
       CsvTable CANDLE_COLS [candle_at 0; candle_at 14400; candle_at 28800] ]}.

(** A file of zero bytes in place of the month. *)
Definition store_blank : gmap string csv_file :=
  {[ "EURUSD-1m-2024-01.csv"%string := CsvBlank ]}.

(** A month of three one-minute candles, the last two with the same time. *)
Definition store_1m_tie : gmap string csv_file :=
  {[ "EURUSD-1m-2024-01.csv"%string :=
       CsvTable CANDLE_COLS [candle_at 0; candle_at 60; candle_at 60] ]}.

(** A month of candles under a header that does not name ["Open time"]. *)
Definition store_no_time_column : gmap string csv_file :=
  {[ "EURUSD-1m-2024-01.csv"%string :=
       CsvTable ["time"; "Open"; "High"; "Low"; "Close"; "Volume"]%string
                [candle_at 0; candle_at 60] ]}.

(** A file with the header line and no record. *)
Definition store_header_only : gmap string csv_file :=
  {[ "EURUSD-1m-2024-01.csv"%string := CsvTable CANDLE_COLS [] ]}.

(** Files for the three symbols of [cfg_three]. *)
Definition store_three : gmap string csv_file :=
  <[ "GBPUSD-1m-2024-01.csv"%string :=
       CsvTable CANDLE_COLS [candle_at 0; candle_at 60] ]>
  (<[ "USDJPY-1m-2024-01.csv"%string :=
       CsvTable CANDLE_COLS [candle_at 0; candle_at 60] ]> store_1m).

(** A terminal that has two bars for every request. *)
Definition terminal_ok (sym : string) (tf : mt5_timeframe) (from_date to_date : Z)
  : rates_result :=
  Rates [mkRate from_date 1 2 0 1 5 0 0; mkRate (from_date + 60) 1 2 0 1 5 0 0].

(** A terminal that has bars for [EURUSD] only. *)
Definition terminal_eurusd (sym : string) (tf : mt5_timeframe) (from_date to_date : Z)
  : rates_result :=
  if decide (sym = "EURUSD"%string) then terminal_ok sym tf from_date to_date
  else RatesNone.

(** The charts and the aligned charts of a symbol entry, when loading and
    alignment succeed. *)
Definition charts_of (need : nat) (required : symbol_cfg → list string)
    (cfg : symbol_cfg) (s : gmap string csv_file) : gmap string DataFrame :=
  match result (load_charts need required cfg s) with
  | Ok charts => charts
  | _ => ∅
  end.

Definition aligned_of (need : nat) (required : symbol_cfg → list string)
    (cfg : symbol_cfg) (s : gmap string csv_file) : aligned :=
  match result (align need (charts_of need required cfg s) s) with
  | Ok al => al
  | _ => mkAligned 0 0 ∅ ∅
  end.

Definition exch_ok : option exchange_configs :=
  Some (mkExch (Some (mkMt5Config 1001 "demo"))).

(** ** The stored candles of a symbol entry *)

(** The records of one month of one timeframe: none when the file is absent
    or has no header line. *)
Definition month_candles (s : gmap string csv_file) (cfg : symbol_cfg) (tf : string)
    (m : Z) : list Candle :=
  match s !! csv_name (symbol cfg) tf (year cfg) m with
  | Some (CsvTable _ rs) => rs
  | _ => []
  end.

(** The candles a timeframe yields across all configured months. *)
Definition tf_candles (s : gmap string csv_file) (cfg : symbol_cfg) (tf : string)
  : list Candle :=
  mjoin (month_candles s cfg tf <$> months cfg).

Definition candle_count (s : gmap string csv_file) (cfg : symbol_cfg) (tf : string) : nat :=
  length (tf_candles s cfg tf).

(** The file of one month of a timeframe is there and loading it raises [e]. *)
Definition month_error (s : gmap string csv_file) (cfg : symbol_cfg) (tf : string)
    (m : Z) (e : exn) : Prop :=
  ∃ f, s !! csv_name (symbol cfg) tf (year cfg) m = Some f ∧
       file_error (csv_name (symbol cfg) tf (year cfg) m) f = Some e.

(** Every configured month of the timeframe loads without error: none of the
    files present is without header line, or has records under a header that
    lacks ["Open time"]. *)
Definition files_readable (s : gmap string csv_file) (cfg : symbol_cfg) (tf : string) : Prop :=
  ∀ m f, m ∈ months cfg → s !! csv_name (symbol cfg) tf (year cfg) m = Some f →
         file_error (csv_name (symbol cfg) tf (year cfg) m) f = None.

(** [df] is a series in chronological order, labelled from zero, holding the
    candles [cs0] in some order. *)
Definition chart_of (cs0 : list Candle) (df : DataFrame) : Prop :=
  ∃ cs, rows df = label_from 0 cs ∧ cs ≡ₚ cs0 ∧
        StronglySorted Z.le (open_time <$> cs).

(** The errors the loading phase can end with for one timeframe: the error of
    loading one of its files ([EmptyDataError] of [pd.read_csv], [KeyError] of
    [df["Open time"]]), no candle at all, or fewer candles than [need]. *)
Definition load_error (need : nat) (s : gmap string csv_file) (cfg : symbol_cfg)
    (tf : string) (e : exn) : Prop :=
  (∃ m, m ∈ months cfg ∧ month_error s cfg tf m e)
  ∨ (files_readable s cfg tf ∧ candle_count s cfg tf = 0%nat ∧
     e = ValueError (MsgNoDataAvailable (symbol cfg) tf))
  ∨ (files_readable s cfg tf ∧ (candle_count s cfg tf < need)%nat ∧
     e = ValueError (MsgInsufficientData (symbol cfg) tf need (candle_count s cfg tf))).

(** ** Properties of the requirement resolver *)

Section Resolver.

Lemma elem_of_foldl_add_interval (l : list strategy) (acc : gset string) (i : string) :
  i ∈ foldl add_interval acc l ↔ i ∈ acc ∨ ∃ st, st ∈ l ∧ named_tf st = Some i.
Proof.
  revert acc. induction l as [|st l IH]; intros acc; simpl.
  - split; [auto|]. intros [?|(st & Hst & _)]; [done|]. by apply elem_of_nil in Hst.
  - rewrite IH.
    assert (i ∈ add_interval acc st ↔ i ∈ acc ∨ named_tf st = Some i) as ->.
    { unfold add_interval, named_tf.
      destruct (tfs_tf st) as [tf|]; [case_decide|]; set_solver. }
    set_unfold. naive_solver.
Qed.

(** The set collected by the loop over strategies is the set of distinct
    timeframes the strategies name. *)
Lemma intervals_of_named (cfg : symbol_cfg) : intervals_of cfg = named_timeframes cfg.
Proof.
  apply set_eq. intros i. unfold intervals_of, named_timeframes.
  rewrite elem_of_foldl_add_interval, elem_of_list_to_set, list_elem_of_omap.
  set_solver.
Qed.

Lemma elem_of_foldl_add_month (g : Z → RequiredFile) (ms : list Z)
    (acc : gset RequiredFile) (f : RequiredFile) :
  f ∈ foldl (λ acc' month, acc' ∪ {[ g month ]}) acc ms
  ↔ f ∈ acc ∨ ∃ m, m ∈ ms ∧ f = g m.
Proof.
  revert acc. induction ms as [|m ms IH]; intros acc; simpl.
  - set_solver.
  - rewrite IH. set_solver.
Qed.

Lemma elem_of_foldl_add_files (cfg : symbol_cfg) (ivs : list string)
    (acc : gset RequiredFile) (f : RequiredFile) :
  f ∈ foldl (λ acc interval,
               foldl (λ acc' month, acc' ∪ {[ (symbol cfg, interval, year cfg, month) ]})
                     acc (months cfg)) acc ivs
  ↔ f ∈ acc ∨ ∃ i m, i ∈ ivs ∧ m ∈ months cfg ∧ f = (symbol cfg, i, year cfg, m).
Proof.
  revert acc. induction ivs as [|i ivs IH]; intros acc; simpl.
  - set_solver.
  - rewrite IH, (elem_of_foldl_add_month (λ m, (symbol cfg, i, year cfg, m))).
    set_solver.
Qed.

Lemma elem_of_product_list (cfg : symbol_cfg) (f : RequiredFile) :
  f ∈ product_list cfg
  ↔ ∃ i m, i ∈ named_timeframes cfg ∧ m ∈ months cfg ∧ f = (symbol cfg, i, year cfg, m).
Proof.
  unfold product_list. rewrite list_elem_of_fmap. split.
  - intros ([i m] & -> & [Hi Hm]%list_elem_of_cprod). simpl in *.
    exists i, m. by rewrite <- elem_of_elements.
  - intros (i & m & Hi & Hm & ->). exists (i, m). split; [done|].
    apply list_elem_of_cprod. simpl. by rewrite elem_of_elements.
Qed.

(** What one symbol entry adds to the set under construction. *)
Lemma add_symbol_files_product (acc : gset RequiredFile) (cfg : symbol_cfg) :
  add_symbol_files acc cfg = acc ∪ symbol_product cfg.
Proof.
  apply set_eq. intros f. unfold add_symbol_files, symbol_product.
  rewrite elem_of_foldl_add_files, elem_of_union, elem_of_list_to_set,
    elem_of_product_list, intervals_of_named.
  by setoid_rewrite elem_of_elements.
Qed.

Lemma required_files_fold (cfgs : list symbol_cfg) (acc : gset RequiredFile) :
  foldl add_symbol_files acc cfgs = acc ∪ ⋃ (symbol_product <$> cfgs).
Proof.
  revert acc. induction cfgs as [|cfg cfgs IH]; intros acc.
  - simpl. by rewrite (right_id_L ∅ (∪)).
  - rewrite fmap_cons, union_list_cons. simpl.
    by rewrite IH, add_symbol_files_product, (assoc_L (∪)).
Qed.

Lemma NoDup_cprod {A B} (l : list A) (k : list B) :
  NoDup l → NoDup k → NoDup (cprod l k).
Proof.
  intros Hl Hk. induction Hl as [|x l Hx Hl IH].
  - constructor.
  - change (cprod (x :: l) k) with (((λ y, (x, y)) <$> k) ++ cprod l k).
    apply NoDup_app. split_and!.
    + apply NoDup_fmap_2; [|done]. by intros ?? [=].
    + intros [a b] (y & Heq & _)%list_elem_of_fmap [Hin _]%list_elem_of_cprod.
      simplify_eq/=. done.
    + done.
Qed.

Lemma NoDup_product_list (cfg : symbol_cfg) :
  NoDup (months cfg) → NoDup (product_list cfg).
Proof.
  intros Hm. unfold product_list. apply NoDup_fmap_2.
  - intros [i m] [i' m'] [=]. by simplify_eq/=.
  - apply NoDup_cprod; [apply NoDup_elements|done].
Qed.

Lemma size_symbol_product (cfg : symbol_cfg) :
  NoDup (months cfg) →
  size (symbol_product cfg) = (size (named_timeframes cfg) * length (months cfg))%nat.
Proof.
  intros Hm. unfold symbol_product.
  rewrite size_list_to_set by by apply NoDup_product_list.
  unfold product_list. by rewrite length_fmap, list_cprod_list_prod, length_prod.
Qed.

Lemma same_entry_product (cfg cfg' : symbol_cfg) :
  same_entry cfg cfg' → symbol_product cfg = symbol_product cfg'.
Proof.
  intros (Hs & Hy & Hm & Htf).
  assert (named_timeframes cfg = named_timeframes cfg') as Hn.
  { apply set_eq. intros tf. unfold named_timeframes.
    rewrite !elem_of_list_to_set, !list_elem_of_omap. apply Htf. }
  unfold symbol_product, product_list. by rewrite Hs, Hy, Hm, Hn.
Qed.

(** C6. When no symbol entry lists a month twice, the required files are the
    union over the symbol entries of the cartesian product of the entry's
    distinct strategy timeframes with its months, tagged with its symbol and
    year; each entry adds exactly that product to the set built so far, the
    product has |distinct timeframes| * |months| elements, and entries that
    differ only in the order or repetition of their strategies' timeframes
    give the same set. *)
Theorem required_files_cartesian (cfgs : list symbol_cfg) :
  Forall (λ cfg, NoDup (months cfg)) cfgs →
  get_required_data_files cfgs = ⋃ (symbol_product <$> cfgs) ∧
  (∀ cfg, cfg ∈ cfgs →
     (∀ acc, add_symbol_files acc cfg = acc ∪ symbol_product cfg) ∧
     (∀ f, f ∈ symbol_product cfg ↔
           ∃ tf m, tf ∈ named_timeframes cfg ∧ m ∈ months cfg ∧
                   f = (symbol cfg, tf, year cfg, m)) ∧
     size (symbol_product cfg)
       = (size (named_timeframes cfg) * length (months cfg))%nat) ∧
  (∀ cfgs', Forall2 same_entry cfgs cfgs' →
     get_required_data_files cfgs' = get_required_data_files cfgs).
Proof.
  intros Hnd. unfold get_required_data_files, required_files_of. split_and!.
  - by rewrite required_files_fold, (left_id_L ∅ (∪)).
  - intros cfg Hin. split_and!.
    + intros acc. apply add_symbol_files_product.
    + intros f. unfold symbol_product.
      by rewrite elem_of_list_to_set, elem_of_product_list.
    + apply size_symbol_product. by eapply Forall_forall in Hnd.
  - intros cfgs' H2. rewrite !required_files_fold. f_equal. f_equal.
    clear Hnd. induction H2 as [|cfg cfg' l l' Hs _ IH]; [done|].
    rewrite !fmap_cons, IH. f_equal. symmetry. by apply same_entry_product.
Qed.

End Resolver.

(** ** Lists, labels and sorting *)

Section Frames.

Lemma mjoin_cons {A} (l : list A) (ls : list (list A)) : mjoin (l :: ls) = l ++ mjoin ls.
Proof. done. Qed.

Lemma mjoin_singleton {A} (l : list A) : mjoin [l] = l.
Proof. apply app_nil_r. Qed.

Lemma label_from_snd (k : Z) (cs : list Candle) : (label_from k cs).*2 = cs.
Proof. revert k. induction cs as [|c cs IH]; intros k; simpl; [done|]. by rewrite IH. Qed.

Lemma label_from_fst (k : Z) (cs : list Candle) :
  (label_from k cs).*1 = seqZ k (Z.of_nat (length cs)).
Proof.
  revert k. induction cs as [|c cs IH]; intros k; [done|].
  cbn [label_from fmap list_fmap length]. rewrite Nat2Z.inj_succ, seqZ_cons by lia.
  rewrite IH. do 2 f_equal; lia.
Qed.

Lemma label_from_length (k : Z) (cs : list Candle) : length (label_from k cs) = length cs.
Proof. revert k. induction cs as [|c cs IH]; intros k; simpl; [done|]. by rewrite IH. Qed.

Lemma label_from_app (k : Z) (cs1 cs2 : list Candle) :
  label_from k (cs1 ++ cs2) = label_from k cs1 ++ label_from (k + Z.of_nat (length cs1)) cs2.
Proof.
  revert k. induction cs1 as [|c cs1 IH]; intros k; simpl.
  - f_equal; lia.
  - rewrite IH. do 3 f_equal. lia.
Qed.

Lemma insert_row_perm (r : row) (l : list row) : insert_row r l ≡ₚ r :: l.
Proof.
  induction l as [|r' l IH]; simpl; [done|].
  case_match; [|done]. rewrite IH. apply Permutation_swap.
Qed.

Lemma sort_rows_perm (l : list row) : sort_rows l ≡ₚ l.
Proof.
  induction l as [|r l IH]; simpl; [done|]. by rewrite insert_row_perm, IH.
Qed.

Definition row_le (a b : row) : Prop := open_time a.2 ≤ open_time b.2.

Lemma insert_row_sorted (r : row) (l : list row) :
  Sorted row_le l → Sorted row_le (insert_row r l).
Proof.
  induction 1 as [|r' l Hs IH Hhd]; simpl.
  - repeat constructor.
  - destruct (open_time r'.2 <? open_time r.2) eqn:E.
    + constructor; [done|]. destruct l as [|r'' l]; simpl.
      * constructor. unfold row_le. lia.
      * inversion Hhd; subst. case_match; constructor; [done|unfold row_le; lia].
    + constructor; [by constructor|]. constructor. unfold row_le. lia.
Qed.

Lemma sort_rows_sorted (l : list row) : StronglySorted row_le (sort_rows l).
Proof.
  apply Sorted_StronglySorted.
  - intros a b c. unfold row_le. lia.
  - induction l as [|r l IH]; simpl; [constructor|]. by apply insert_row_sorted.
Qed.

Lemma sorted_open_times (l : list row) :
  StronglySorted row_le l → StronglySorted Z.le (open_time <$> l.*2).
Proof.
  induction 1 as [|r l Hs IH Hall]; simpl; constructor; [done|].
  rewrite <- list_fmap_compose. apply Forall_fmap. done.
Qed.

(** The chart built at lines 252-254 from the frames of the months. *)
Lemma chart_rows (frames : list DataFrame) :
  chart_of (mjoin (rows <$> frames)).*2
           (reset_index (sort_values (concat frames))).
Proof.
  exists (sort_rows (label_from 0 (mjoin (rows <$> frames)).*2)).*2.
  split_and!.
  - done.
  - rewrite sort_rows_perm. by rewrite label_from_snd.
  - apply sorted_open_times, sort_rows_sorted.
Qed.

Lemma chart_of_length (cs0 : list Candle) (df : DataFrame) :
  chart_of cs0 df → df_len df = length cs0.
Proof.
  intros (cs & Hr & Hp & _). unfold df_len. by rewrite Hr, label_from_length, Hp.
Qed.

End Frames.

(** ** Reasoning about runs *)

(** [post m s Q]: the run of [m] from the storage [s] ends with an outcome, a
    storage and a trace that satisfy [Q]. *)
Definition post {A} (m : M A) (s : gmap string csv_file)
    (Q : outcome A → gmap string csv_file → list event → Prop) : Prop :=
  Q (result (m s)) (store (m s)) (trace (m s)).

Section Runs.

Context {A B : Type}.

Lemma post_ret (a : A) s (Q : outcome A → gmap string csv_file → list event → Prop) :
  Q (Ok a) s [] → post (ret a) s Q.
Proof. done. Qed.

Lemma post_raise (e : exn) s (Q : outcome A → gmap string csv_file → list event → Prop) :
  Q (Raise e) s [] → post (raise e) s Q.
Proof. done. Qed.

Lemma post_lift (o : option A) (e : exn) s
    (Q : outcome A → gmap string csv_file → list event → Prop) :
  match o with Some a => Q (Ok a) s [] | None => Q (Raise e) s [] end →
  post (lift o e) s Q.
Proof. by destruct o. Qed.

Lemma post_bind (m : M A) (f : A → M B) s
    (Q : outcome B → gmap string csv_file → list event → Prop) :
  post m s (λ r s' t,
    match r with
    | Ok a => post (f a) s' (λ r' s'' t', Q r' s'' (t ++ t'))
    | Raise e => Q (Raise e) s' t
    | OutOfFuel => Q OutOfFuel s' t
    end) →
  post (bind m f) s Q.
Proof.
  unfold post, bind. by destruct (result (m s)).
Qed.

Lemma post_eq (m : M A) s (r : run A)
    (Q : outcome A → gmap string csv_file → list event → Prop) :
  m s = r → Q (result r) (store r) (trace r) → post m s Q.
Proof. by intros <-. Qed.

Lemma post_known (m : M A) s (r : outcome A)
    (Q : outcome A → gmap string csv_file → list event → Prop) :
  result (m s) = r → Q r (store (m s)) (trace (m s)) → post m s Q.
Proof. by intros <-. Qed.

Lemma post_mono (m : M A) s
    (Q Q' : outcome A → gmap string csv_file → list event → Prop) :
  post m s Q → (∀ r s' t, Q r s' t → Q' r s' t) → post m s Q'.
Proof. unfold post. auto. Qed.

End Runs.

Lemma post_emit (e : event) s (Q : outcome unit → gmap string csv_file → list event → Prop) :
  Q (Ok tt) s [e] → post (emit e) s Q.
Proof. done. Qed.

Lemma post_log (l : level) (m : message) s
    (Q : outcome unit → gmap string csv_file → list event → Prop) :
  Q (Ok tt) s [Log l m] → post (log l m) s Q.
Proof. done. Qed.

Lemma post_put_file (name : string) (f : csv_file) s
    (Q : outcome unit → gmap string csv_file → list event → Prop) :
  Q (Ok tt) (<[name := f]> s) [] → post (put_file name f) s Q.
Proof. done. Qed.

(** One step through a sequence of calls whose outcome is known. *)
Ltac run_step :=
  cbn [for_each];
  lazymatch goal with
  | |- post (bind _ _) _ _ => apply post_bind
  | |- post (ret _) _ _ => apply post_ret
  | |- post (raise _) _ _ => apply post_raise
  | |- post (log _ _) _ _ => apply post_log
  | |- post (emit _) _ _ => apply post_emit
  | |- post (lift _ _) _ _ => apply post_lift
  | |- post (put_file _ _) _ _ => apply post_put_file
  end;
  cbn beta iota.

(** ** Loading the charts of a symbol *)

Section Loading.

Variable NUM_KLINE_INIT : nat.
Variable get_required_tfs : symbol_cfg → list string.

Lemma load_month_run (sym tf : string) (m y : Z) (s : gmap string csv_file) :
  load_mt5_klines_monthly_data sym tf m y s =
  match s !! csv_name sym tf y m with
  | None => mkRun (Ok (empty_frame CANDLE_COLS)) s
                  [Log WARNING (MsgDataFileNotFound (csv_name sym tf y m))]
  | Some CsvBlank => mkRun (Raise (EmptyDataError (csv_name sym tf y m))) s []
  | Some (CsvTable h []) => mkRun (Ok (empty_frame CANDLE_COLS)) s
                                  [Log WARNING (MsgEmptyDataFile (csv_name sym tf y m))]
  | Some (CsvTable h (c :: rs)) =>
      if decide (OPEN_TIME ∈ h)
      then mkRun (Ok (mkDF h (label_from 0 (c :: rs)))) s []
      else mkRun (Raise (KeyError OPEN_TIME)) s []
  end.
Proof.
  unfold load_mt5_klines_monthly_data, bind, get_store. simpl.
  destruct (s !! csv_name sym tf y m) as [[|h [|c rs]]|]; try reflexivity.
  simpl. by case_decide.
Qed.

(** What the loop over the months leaves in [monthly_data]. *)
Definition months_loaded (s : gmap string csv_file) (cfg : symbol_cfg) (tf : string)
    (ms : list Z) (acc : list DataFrame)
    (r : outcome (list DataFrame)) (s' : gmap string csv_file) (t : list event) : Prop :=
  s' = s ∧ Forall is_log t ∧
  match r with
  | Ok frames =>
      (mjoin (rows <$> frames)).*2
        = (mjoin (rows <$> acc)).*2 ++ mjoin (month_candles s cfg tf <$> ms) ∧
      (Forall (λ df, rows df ≠ []) acc → Forall (λ df, rows df ≠ []) frames) ∧
      (∀ m f, m ∈ ms → s !! csv_name (symbol cfg) tf (year cfg) m = Some f →
              file_error (csv_name (symbol cfg) tf (year cfg) m) f = None)
  | Raise e => ∃ m, m ∈ ms ∧ month_error s cfg tf m e
  | OutOfFuel => False
  end.

Lemma load_months_from (cfg : symbol_cfg) (tf : string) (ms : list Z)
    (acc : list DataFrame) (s : gmap string csv_file) :
  post (for_each ms acc
          (λ monthly_data month,
             month_data <~ load_klines_monthly_data (symbol cfg) tf month (year cfg) ;;
             ret (if decide (0 < df_len month_data)%nat
                  then monthly_data ++ [month_data] else monthly_data)))
       s (months_loaded s cfg tf ms acc).
Proof.
  revert acc. induction ms as [|m ms IH]; intros acc.
  - apply post_ret. split_and!; [done|constructor|by rewrite app_nil_r|done|].
    intros m f Hm. by apply elem_of_nil in Hm.
  - cbn [for_each]. do 2 run_step.
    unfold load_klines_monthly_data. eapply post_eq; [apply load_month_run|].
    assert (∀ (r : outcome (list DataFrame)) acc',
      (mjoin (rows <$> acc')).*2
        = (mjoin (rows <$> acc)).*2 ++ month_candles s cfg tf m →
      (Forall (λ df, rows df ≠ []) acc → Forall (λ df, rows df ≠ []) acc') →
      (∀ f, s !! csv_name (symbol cfg) tf (year cfg) m = Some f →
            file_error (csv_name (symbol cfg) tf (year cfg) m) f = None) →
      match r with
      | Ok frames =>
          (mjoin (rows <$> frames)).*2
            = (mjoin (rows <$> acc')).*2 ++ mjoin (month_candles s cfg tf <$> ms) ∧
          (Forall (λ df, rows df ≠ []) acc' → Forall (λ df, rows df ≠ []) frames) ∧
          (∀ m f, m ∈ ms → s !! csv_name (symbol cfg) tf (year cfg) m = Some f →
                  file_error (csv_name (symbol cfg) tf (year cfg) m) f = None)
      | Raise e => ∃ m, m ∈ ms ∧ month_error s cfg tf m e
      | OutOfFuel => False
      end →
      match r with
      | Ok frames =>
          (mjoin (rows <$> frames)).*2
            = (mjoin (rows <$> acc)).*2 ++ mjoin (month_candles s cfg tf <$> m :: ms) ∧
          (Forall (λ df, rows df ≠ []) acc → Forall (λ df, rows df ≠ []) frames) ∧
          (∀ m' f, m' ∈ m :: ms →
                   s !! csv_name (symbol cfg) tf (year cfg) m' = Some f →
                   file_error (csv_name (symbol cfg) tf (year cfg) m') f = None)
      | Raise e => ∃ m', m' ∈ m :: ms ∧ month_error s cfg tf m' e
      | OutOfFuel => False
      end) as Hstep.
    { intros r acc' Hacc Hne Hfile Hr.
      destruct r as [frames|e|]; [|destruct Hr as (m' & ? & ?)|done].
      - destruct Hr as (H1 & H2 & H3). split_and!.
        + etrans; [exact H1|]. etrans; [apply (f_equal (λ l, l ++ _) Hacc)|].
          by rewrite fmap_cons, mjoin_cons, <- app_assoc.
        + auto.
        + intros m' f [->|?]%elem_of_cons; [by apply Hfile|by apply H3].
      - exists m'. split; [by right|done]. }
    destruct (s !! csv_name (symbol cfg) tf (year cfg) m) as [[|h [|c rs]]|] eqn:Ef;
      cbn [result store trace].
    + split_and!; [done|constructor|]. exists m. split; [left|].
      exists CsvBlank. by rewrite Ef.
    + run_step. cbn [df_len rows empty_frame length].
      destruct (decide (0 < 0)%nat) as [?|_]; [lia|].
      eapply post_mono; [apply (IH acc)|]. intros r s' t (-> & Ht & Hr).
      split_and!; [done| |].
      { simpl. by constructor. }
      apply (Hstep r acc); [|done| |done].
      * unfold month_candles. by rewrite Ef, app_nil_r.
      * by intros f [= <-].
    + destruct (decide (OPEN_TIME ∈ h)) as [Hcol|Hcol]; cbn [result store trace].
      * run_step. cbn [df_len rows label_from length].
        destruct (decide (0 < S (length (label_from (0 + 1) rs)))%nat) as [_|?]; [|lia].
        eapply post_mono; [apply (IH (acc ++ [mkDF h (label_from 0 (c :: rs))]))|].
        intros r s' t (-> & Ht & Hr).
        split_and!; [done|by simpl|].
        apply (Hstep r (acc ++ [mkDF h (label_from 0 (c :: rs))])); [| | |done].
        -- unfold month_candles. rewrite Ef, fmap_app, join_app, fmap_app.
           f_equal. rewrite list_fmap_singleton, mjoin_singleton. cbn [rows].
           by rewrite label_from_snd.
        -- intros Hacc. apply Forall_app. split; [done|]. by repeat constructor.
        -- intros f [= <-]. simpl. by rewrite decide_True.
      * split_and!; [done|constructor|]. exists m. split; [left|].
        exists (CsvTable h (c :: rs)). rewrite Ef. split; [done|].
        simpl. by rewrite decide_False.
    + run_step. cbn [df_len rows empty_frame length].
      destruct (decide (0 < 0)%nat) as [?|_]; [lia|].
      eapply post_mono; [apply (IH acc)|]. intros r s' t (-> & Ht & Hr).
      split_and!; [done| |].
      { simpl. by constructor. }
      apply (Hstep r acc); [|done| |done].
      * unfold month_candles. by rewrite Ef, app_nil_r.
      * by intros f [=].
Qed.

Lemma sorted_months_candles (s : gmap string csv_file) (cfg : symbol_cfg) (tf : string) :
  mjoin (month_candles s cfg tf <$> merge_sort Z.le (months cfg)) ≡ₚ tf_candles s cfg tf.
Proof. unfold tf_candles. by rewrite merge_sort_Permutation. Qed.

Lemma elem_of_sorted_months (cfg : symbol_cfg) (m : Z) :
  m ∈ merge_sort Z.le (months cfg) ↔ m ∈ months cfg.
Proof. by rewrite merge_sort_Permutation. Qed.

(** What the body of the loop over the timeframes does for one timeframe. *)
Definition chart_loaded (s : gmap string csv_file) (cfg : symbol_cfg) (tf : string)
    (charts : gmap string DataFrame)
    (r : outcome (gmap string DataFrame)) (s' : gmap string csv_file)
    (t : list event) : Prop :=
  s' = s ∧ Forall is_log t ∧
  match r with
  | Ok charts' =>
      ∃ df, charts' = <[tf := df]> charts ∧ chart_of (tf_candles s cfg tf) df ∧
            (NUM_KLINE_INIT ≤ candle_count s cfg tf)%nat ∧
            (0 < candle_count s cfg tf)%nat ∧ files_readable s cfg tf
  | Raise e => load_error NUM_KLINE_INIT s cfg tf e
  | OutOfFuel => False
  end.

Lemma load_chart_run (cfg : symbol_cfg) (charts : gmap string DataFrame) (tf : string)
    (s : gmap string csv_file) :
  post (load_chart NUM_KLINE_INIT cfg charts tf) s (chart_loaded s cfg tf charts).
Proof.
  unfold load_chart. run_step. unfold load_months.
  eapply post_mono; [apply load_months_from|].
  intros r s' t (-> & Ht & Hr). destruct r as [frames|e|]; [|split_and!; try done|done].
  - destruct Hr as (H1 & H2 & H3). specialize (H2 (Forall_nil_2 _)).
    rewrite app_nil_l in H1.
    assert (files_readable s cfg tf) as Hbf.
    { intros m f Hm. by apply H3, elem_of_sorted_months. }
    assert (chart_of (tf_candles s cfg tf)
              (reset_index (sort_values (concat frames)))) as Hchart.
    { destruct (chart_rows frames) as (cs & ? & Hp & ?). exists cs. split_and!; [done| |done].
      rewrite Hp. unfold row in *. by rewrite H1, sorted_months_candles. }
    pose proof (chart_of_length _ _ Hchart) as Hlen.
    fold (candle_count s cfg tf) in Hlen.
    destruct (decide (length frames = 0%nat)) as [Hz|Hnz].
    + do 3 run_step. split_and!; [done| |].
      { apply Forall_app. split; [done|by repeat constructor]. }
      right; left. split_and!; [done| |done].
      destruct frames; [|done]. unfold candle_count.
      by rewrite <- sorted_months_candles, <- H1.
    + destruct (decide (df_len (reset_index (sort_values (concat frames)))
                        < NUM_KLINE_INIT)%nat) as [Hlt|Hge].
      * do 9 run_step. split_and!; [done| |].
        { apply Forall_app. split; [done|by repeat constructor]. }
        right; right. rewrite Hlen in *. done.
      * run_step. rewrite app_nil_r. split_and!; [done..|].
        eexists. split_and!; [done|done|lia| |done].
        destruct frames as [|df frames]; [done|].
        apply Forall_cons in H2 as [Hne _].
        unfold candle_count. rewrite <- sorted_months_candles, <- H1.
        rewrite fmap_cons, mjoin_cons, fmap_app, length_app, length_fmap.
        destruct (rows df); [done|simpl; lia].
  - destruct Hr as (m & Hm & Hf). left. exists m.
    by rewrite <- elem_of_sorted_months.
Qed.

(** What the loop over the required timeframes leaves in [tfs_chart]. *)
Definition charts_loaded (s : gmap string csv_file) (cfg : symbol_cfg)
    (tfs : list string) (charts : gmap string DataFrame)
    (r : outcome (gmap string DataFrame)) (s' : gmap string csv_file)
    (t : list event) : Prop :=
  s' = s ∧ Forall is_log t ∧
  match r with
  | Ok charts' =>
      (∀ tf, tf ∈ tfs →
         (∃ df, charts' !! tf = Some df ∧ chart_of (tf_candles s cfg tf) df) ∧
         (NUM_KLINE_INIT ≤ candle_count s cfg tf)%nat ∧
         (0 < candle_count s cfg tf)%nat ∧ files_readable s cfg tf) ∧
      (∀ tf, tf ∉ tfs → charts' !! tf = charts !! tf)
  | Raise e => ∃ tf, tf ∈ tfs ∧ load_error NUM_KLINE_INIT s cfg tf e
  | OutOfFuel => False
  end.

Lemma load_charts_from (cfg : symbol_cfg) (tfs : list string)
    (charts : gmap string DataFrame) (s : gmap string csv_file) :
  post (for_each tfs charts (load_chart NUM_KLINE_INIT cfg)) s
       (charts_loaded s cfg tfs charts).
Proof.
  revert charts. induction tfs as [|tf tfs IH]; intros charts.
  - apply post_ret. split_and!; [done|constructor| |done].
    intros tf Htf. by apply elem_of_nil in Htf.
  - cbn [for_each]. run_step.
    eapply post_mono; [apply load_chart_run|].
    intros r s' t (-> & Ht & Hr). destruct r as [charts1|e|]; [| |done].
    + destruct Hr as (df & -> & Hdf & Hn & Hp & Hb).
      eapply post_mono; [apply IH|].
      intros r s' t' (-> & Ht' & Hr). split_and!; [done|by apply Forall_app|].
      destruct r as [charts'|e|]; [| |done].
      * destruct Hr as [Hin Hout]. split.
        -- intros tf' [->|Hin']%elem_of_cons; [|by apply Hin].
           destruct (decide (tf ∈ tfs)) as [?|Hni]; [by apply Hin|].
           split_and!; [|done..]. exists df. split; [|done].
           by rewrite (Hout _ Hni), lookup_insert_eq.
        -- intros tf' Hni. rewrite not_elem_of_cons in Hni. destruct Hni as [Hne Hni].
           by rewrite (Hout _ Hni), lookup_insert_ne.
      * destruct Hr as (tf' & ? & ?). exists tf'. split; [by right|done].
    + split_and!; [done..|]. exists tf. split; [left|done].
Qed.

(** The charts of a symbol entry after a successful loading phase: one per
    required timeframe, in chronological order, with at least the warm-up
    number of candles. *)
Lemma load_charts_ok (cfg : symbol_cfg) (s : gmap string csv_file)
    (charts : gmap string DataFrame) :
  result (load_charts NUM_KLINE_INIT get_required_tfs cfg s) = Ok charts →
  (∀ tf, tf ∈ get_required_tfs cfg →
     (∃ df, charts !! tf = Some df ∧ chart_of (tf_candles s cfg tf) df) ∧
     (NUM_KLINE_INIT ≤ candle_count s cfg tf)%nat ∧
     (0 < candle_count s cfg tf)%nat ∧ files_readable s cfg tf) ∧
  (∀ tf, tf ∉ get_required_tfs cfg → charts !! tf = None).
Proof.
  intros Hok. pose proof (load_charts_from cfg (get_required_tfs cfg) ∅ s) as H.
  unfold post in H. fold (load_charts NUM_KLINE_INIT get_required_tfs cfg) in H.
  rewrite Hok in H. destruct H as (_ & _ & Hin & Hout). split; [done|].
  intros tf Hni. by rewrite (Hout _ Hni).
Qed.

End Loading.

(** ** Slicing a chronological series *)

Section Slices.

Lemma label_from_lookup (k : Z) (cs : list Candle) (i : nat) :
  label_from k cs !! i = (λ c, (k + Z.of_nat i, c)) <$> cs !! i.
Proof.
  revert k i. induction cs as [|c cs IH]; intros k [|i]; simpl; try done.
  - do 2 f_equal. lia.
  - rewrite IH. destruct (cs !! i); simpl; [|done]. do 2 f_equal. lia.
Qed.

Lemma take_label (k : Z) (n : nat) (cs : list Candle) :
  take n (label_from k cs) = label_from k (take n cs).
Proof.
  revert k n. induction cs as [|c cs IH]; intros k [|n]; simpl; try done.
  by rewrite IH.
Qed.

Lemma drop_label (k : Z) (n : nat) (cs : list Candle) :
  drop n (label_from k cs) = label_from (k + Z.of_nat n) (drop n cs).
Proof.
  revert k n. induction cs as [|c cs IH]; intros k [|n]; simpl; try done.
  - by rewrite Z.add_0_r.
  - rewrite IH. f_equal. lia.
Qed.

Lemma shift_label (j k : Z) (cs : list Candle) :
  (λ r : row, (r.1 - j, r.2)) <$> label_from k cs = label_from (k - j) cs.
Proof.
  revert k. induction cs as [|c cs IH]; intros k; simpl; [done|].
  rewrite IH. do 2 f_equal. lia.
Qed.

Lemma filter_label_all (P : row → Prop) `{!∀ r, Decision (P r)} (k : Z)
    (cs : list Candle) :
  Forall (λ c, ∀ i, P (i, c)) cs → filter P (label_from k cs) = label_from k cs.
Proof.
  intros Hall. revert k. induction Hall as [|c cs Hc _ IH]; intros k; simpl; [done|].
  rewrite filter_cons_True by apply Hc. by rewrite IH.
Qed.

Lemma filter_label_none (P : row → Prop) `{!∀ r, Decision (P r)} (k : Z)
    (cs : list Candle) :
  Forall (λ c, ∀ i, ¬ P (i, c)) cs → filter P (label_from k cs) = [].
Proof.
  intros Hall. revert k. induction Hall as [|c cs Hc _ IH]; intros k; simpl; [done|].
  rewrite filter_cons_False by apply Hc. by rewrite IH.
Qed.

(** A chronological series splits at any instant into the candles up to it
    and the candles after it. *)
Lemma sorted_split (t : Z) (cs : list Candle) :
  StronglySorted Z.le (open_time <$> cs) →
  ∃ p : nat, (p ≤ length cs)%nat ∧
    Forall (λ c, open_time c ≤ t) (take p cs) ∧
    Forall (λ c, t < open_time c) (drop p cs).
Proof.
  induction cs as [|c cs IH]; intros Hs.
  - exists 0%nat. by repeat split.
  - rewrite fmap_cons in Hs. apply StronglySorted_inv in Hs as [Hs Hall].
    destruct (decide (open_time c ≤ t)) as [Hle|Hgt].
    + destruct (IH Hs) as (p & Hp & H1 & H2). exists (S p). simpl.
      split_and!; [lia|by constructor|done].
    + exists 0%nat. simpl. split_and!; [lia|done|].
      constructor; [lia|]. rewrite Forall_fmap in Hall.
      eapply Forall_impl; [exact Hall|]. simpl. intros; lia.
Qed.

Lemma mask_le_rows (t : Z) (p : nat) (df : DataFrame) (cs : list Candle) :
  rows df = label_from 0 cs →
  Forall (λ c, open_time c ≤ t) (take p cs) →
  Forall (λ c, t < open_time c) (drop p cs) →
  rows (mask_le t df) = label_from 0 (take p cs).
Proof.
  intros Hr H1 H2. unfold mask_le. cbn [rows]. rewrite Hr.
  rewrite <- (take_drop p cs) at 1. rewrite label_from_app, filter_app.
  rewrite filter_label_all, filter_label_none, app_nil_r; [done| |].
  - eapply Forall_impl; [exact H2|]. simpl. intros; lia.
  - eapply Forall_impl; [exact H1|]. simpl. done.
Qed.

Lemma mask_gt_rows (t : Z) (p : nat) (df : DataFrame) (cs : list Candle) :
  (p ≤ length cs)%nat →
  rows df = label_from 0 cs →
  Forall (λ c, open_time c ≤ t) (take p cs) →
  Forall (λ c, t < open_time c) (drop p cs) →
  rows (mask_gt t df) = label_from (Z.of_nat p) (drop p cs).
Proof.
  intros Hp Hr H1 H2. unfold mask_gt. cbn [rows]. rewrite Hr.
  rewrite <- (take_drop p cs) at 1. rewrite label_from_app, filter_app.
  rewrite filter_label_none, filter_label_all, app_nil_l.
  - by rewrite length_take_le.
  - eapply Forall_impl; [exact H2|]. simpl. done.
  - eapply Forall_impl; [exact H1|]. simpl. intros; lia.
Qed.

Lemma py_last_drop {A} (n : nat) (l : list A) :
  (0 < n)%nat → py_last n l = drop (length l - n) l.
Proof. by destruct n; [lia|]. Qed.

(** [max(xs)] is an element of [xs] that bounds all of them. *)
Lemma foldl_max_spec (x : Z) (l : list Z) :
  foldl Z.max x l ∈ x :: l ∧ Forall (λ y, y ≤ foldl Z.max x l) (x :: l).
Proof.
  revert x. induction l as [|y l IH]; intros x; simpl.
  - split; [left|]. by repeat constructor.
  - destruct (IH (x `max` y)) as [Hin Hall]. apply Forall_cons in Hall as [Hm Hall].
    split.
    + apply elem_of_cons in Hin as [Heq|Hin]; [|by do 2 right].
      rewrite Heq. destruct (Z.max_spec x y) as [[_ ->]|[_ ->]]; [right; left|left].
    + constructor; [lia|]. constructor; [lia|done].
Qed.

Lemma py_max_spec (xs : list Z) (m : Z) :
  py_max xs = Some m → m ∈ xs ∧ Forall (λ y, y ≤ m) xs.
Proof.
  destruct xs as [|x l]; [done|]. intros [= <-]. apply foldl_max_spec.
Qed.

End Slices.

(** ** Alignment *)

Section Alignment.

Variable NUM_KLINE_INIT : nat.

Lemma Forall2_elem_of_l {A B} (P : A → B → Prop) (l : list A) (k : list B) (x : A) :
  Forall2 P l k → x ∈ l → ∃ y, y ∈ k ∧ P x y.
Proof.
  intros HF [i Hi]%list_elem_of_lookup.
  destruct (Forall2_lookup_l _ _ _ _ _ HF Hi) as (y & Hy & HP).
  exists y. split; [|done]. by eapply list_elem_of_lookup_2.
Qed.

Lemma Forall2_elem_of_r {A B} (P : A → B → Prop) (l : list A) (k : list B) (y : B) :
  Forall2 P l k → y ∈ k → ∃ x, x ∈ l ∧ P x y.
Proof.
  intros HF [i Hi]%list_elem_of_lookup.
  destruct (Forall2_lookup_r _ _ _ _ _ HF Hi) as (x & Hx & HP).
  exists x. split; [|done]. by eapply list_elem_of_lookup_2.
Qed.

Lemma elem_of_values (charts : gmap string DataFrame) (df : DataFrame) :
  df ∈ values charts ↔ ∃ tf, charts !! tf = Some df.
Proof.
  unfold values. rewrite list_elem_of_fmap. split.
  - intros ([tf df'] & -> & Hin%elem_of_map_to_list). by exists tf.
  - intros (tf & Hl). exists (tf, df). split; [done|]. by apply elem_of_map_to_list.
Qed.

(** [m] is the greatest of the times found at position [i] of the charts. *)
Definition greatest_at (i : Z) (charts : gmap string DataFrame) (m : Z) : Prop :=
  (∀ tf df, charts !! tf = Some df → ∃ x, iloc_open_time i df = Some x ∧ x ≤ m) ∧
  (∃ tf df, charts !! tf = Some df ∧ iloc_open_time i df = Some m).

Lemma max_of_values_run (i : Z) (charts : gmap string DataFrame) (s : gmap string csv_file) :
  post (times <~ lift (mapM (iloc_open_time i) (values charts)) IndexError ;;
        lift (py_max times) (ValueError MsgMaxEmpty)) s
       (λ r s' t, s' = s ∧ t = [] ∧
                  match r with
                  | Ok m => greatest_at i charts m
                  | Raise e => True
                  | OutOfFuel => False
                  end).
Proof.
  do 2 run_step. destruct (mapM _ _) as [times|] eqn:E; [|done].
  run_step. destruct (py_max times) as [m|] eqn:Em; [|done].
  split_and!; [done..|].
  apply py_max_spec in Em as [Hin Hall]. apply mapM_Some in E. split.
  - intros tf df Hl.
    destruct (Forall2_elem_of_l _ _ _ df E) as (x & Hx & Hfx).
    { apply elem_of_values. by exists tf. }
    exists x. split; [done|]. by eapply Forall_forall in Hall.
  - destruct (Forall2_elem_of_r _ _ _ m E Hin) as (df & Hdf & Hfm).
    apply elem_of_values in Hdf as (tf & Htf). by exists tf, df.
Qed.

(** What the loop at lines 285-290 leaves in the two dictionaries. *)
Definition split_at (max_time : Z) (tf : string) (df : DataFrame)
    (init replay : gmap string DataFrame) : Prop :=
  ∃ k, head (index (init_slice NUM_KLINE_INIT max_time df)) = Some k ∧
       init !! tf = Some (shift_index k (init_slice NUM_KLINE_INIT max_time df)) ∧
       replay !! tf = Some (shift_index k (replay_slice max_time df)).

Lemma split_from (max_time : Z) (l : list (string * DataFrame))
    (init chart : gmap string DataFrame) (s : gmap string csv_file) :
  NoDup l.*1 →
  post (for_each l (init, chart) (split_chart NUM_KLINE_INIT max_time)) s
       (λ r s' t, s' = s ∧ t = [] ∧
          match r with
          | Ok acc =>
              (∀ tf df, (tf, df) ∈ l → split_at max_time tf df acc.1 acc.2) ∧
              (∀ tf, tf ∉ l.*1 → acc.1 !! tf = init !! tf ∧ acc.2 !! tf = chart !! tf)
          | Raise e => True
          | OutOfFuel => False
          end).
Proof.
  revert init chart. induction l as [|[tf df] l IH]; intros init chart Hnd.
  - run_step. split_and!; [done..| |done]. intros tf df Hin. by apply elem_of_nil in Hin.
  - rewrite fmap_cons in Hnd. apply NoDup_cons in Hnd as [Hni Hnd].
    cbn [for_each]. run_step. unfold split_chart at 1. run_step. run_step.
    destruct (head (index (init_slice NUM_KLINE_INIT max_time df))) as [k|] eqn:Hk; [|done].
    run_step. eapply post_mono; [by apply IH|].
    intros r s' t (-> & -> & Hr). split_and!; [done..|].
    destruct r as [[init' chart']| |]; [|done..].
    destruct Hr as [Hin Hout]. simpl in *. split.
    + intros tf' df' [[= -> ->]|Hin']%elem_of_cons; [|by apply Hin].
      destruct (Hout tf Hni) as [H1 H2]. exists k.
      by rewrite H1, H2, !lookup_insert_eq.
    + intros tf' [Hne Hni']%not_elem_of_cons.
      destruct (Hout tf' Hni') as [H1 H2].
      by rewrite H1, H2, !lookup_insert_ne.
Qed.

(** Alignment reads no file and calls nobody; when it succeeds its outcome is
    as follows. *)
Definition aligned_from (charts : gmap string DataFrame) (al : aligned) : Prop :=
  greatest_at (Z.of_nat NUM_KLINE_INIT - 1) charts (al_max_time al) ∧
  greatest_at (-1) charts (al_end_time al) ∧
  (∀ tf df, charts !! tf = Some df →
     split_at (al_max_time al) tf df (al_init al) (al_replay al)) ∧
  (∀ tf, charts !! tf = None → al_init al !! tf = None ∧ al_replay al !! tf = None).

Lemma align_post (charts : gmap string DataFrame) (s : gmap string csv_file) :
  post (align NUM_KLINE_INIT charts) s
       (λ r s' t, s' = s ∧ t = [] ∧
          match r with
          | Ok al => aligned_from charts al
          | _ => True
          end).
Proof.
  unfold align. run_step. unfold max_time_of.
  eapply post_mono; [apply max_of_values_run|].
  intros r s' t (-> & -> & Hr). destruct r as [max_time| |]; [|done..].
  run_step. unfold end_time_of.
  eapply post_mono; [apply max_of_values_run|].
  intros r s' t (-> & -> & Hr'). destruct r as [end_time| |]; [|done..].
  run_step.
  eapply post_mono; [apply split_from, NoDup_fst_map_to_list|].
  intros r s' t (-> & -> & Hs). destruct r as [[init replay]| |]; [|done..].
  run_step. unfold aligned_from.
  cbn [al_max_time al_end_time al_init al_replay fst snd] in *.
  destruct Hs as [Hin Hout]. split_and!; [done..| |].
  - intros tf df Hl. apply Hin. by apply elem_of_map_to_list.
  - intros tf Hl. destruct (Hout tf) as [H1 H2].
    + intros ([tf' df] & -> & Hin'%elem_of_map_to_list)%list_elem_of_fmap.
      simpl in Hl. congruence.
    + by rewrite H1, H2, lookup_empty.
Qed.

Lemma align_silent (charts : gmap string DataFrame) (s : gmap string csv_file) :
  store (align NUM_KLINE_INIT charts s) = s ∧ trace (align NUM_KLINE_INIT charts s) = [].
Proof. by destruct (align_post charts s) as (? & ? & _). Qed.

Lemma align_ok (charts : gmap string DataFrame) (s : gmap string csv_file) (al : aligned) :
  result (align NUM_KLINE_INIT charts s) = Ok al → aligned_from charts al.
Proof.
  intros Hok. pose proof (align_post charts s) as Hpost. unfold post in Hpost.
  rewrite Hok in Hpost. by destruct Hpost as (_ & _ & ?).
Qed.

End Alignment.

(** ** The aligned chart of one timeframe *)

Section Aligned.

Variable NUM_KLINE_INIT : nat.
Variable get_required_tfs : symbol_cfg → list string.

(** The two slices of the timeframe [tf] whose chronological series is [cs]:
    [p] candles open at or before the alignment instant, the last
    [NUM_KLINE_INIT] of them make the init slice, labelled from zero, and the
    candles after position [p] make the replay slice, labelled from
    [NUM_KLINE_INIT]. *)
Definition aligned_tf (al : aligned) (tf : string) (cs : list Candle) : Prop :=
  ∃ (p : nat) (init replay : DataFrame),
    (NUM_KLINE_INIT ≤ p ≤ length cs)%nat ∧
    al_init al !! tf = Some init ∧
    rows init = label_from 0 (drop (p - NUM_KLINE_INIT) (take p cs)) ∧
    al_replay al !! tf = Some replay ∧
    rows replay = label_from (Z.of_nat NUM_KLINE_INIT) (drop p cs) ∧
    Forall (λ c, open_time c ≤ al_max_time al) (take p cs) ∧
    Forall (λ c, al_max_time al < open_time c) (drop p cs).

Lemma iloc_warmup (df : DataFrame) (cs : list Candle) (x : Z) :
  (0 < NUM_KLINE_INIT)%nat →
  rows df = label_from 0 cs →
  iloc_open_time (Z.of_nat NUM_KLINE_INIT - 1) df = Some x →
  ∃ c, cs !! (NUM_KLINE_INIT - 1)%nat = Some c ∧ open_time c = x.
Proof.
  intros HN Hr. unfold iloc_open_time, py_nth.
  destruct (decide (0 ≤ Z.of_nat NUM_KLINE_INIT - 1)) as [_|?]; [|lia].
  replace (Z.to_nat (Z.of_nat NUM_KLINE_INIT - 1)) with (NUM_KLINE_INIT - 1)%nat by lia.
  rewrite Hr, label_from_lookup.
  destruct (cs !! (NUM_KLINE_INIT - 1)%nat) as [c|]; [|done].
  intros [= <-]. by exists c.
Qed.

Lemma slices_aligned (al : aligned) (tf : string) (df : DataFrame) (cs : list Candle) :
  (0 < NUM_KLINE_INIT)%nat →
  rows df = label_from 0 cs →
  StronglySorted Z.le (open_time <$> cs) →
  (∃ x, iloc_open_time (Z.of_nat NUM_KLINE_INIT - 1) df = Some x ∧ x ≤ al_max_time al) →
  split_at NUM_KLINE_INIT (al_max_time al) tf df (al_init al) (al_replay al) →
  aligned_tf al tf cs.
Proof.
  intros HN Hr Hs (x & Hx & Hle) (k & Hk & Hi & Hrep).
  destruct (iloc_warmup _ _ _ HN Hr Hx) as (c & Hc & <-).
  destruct (sorted_split (al_max_time al) cs Hs) as (p & Hp & H1 & H2).
  assert (NUM_KLINE_INIT ≤ p)%nat as HNp.
  { destruct (decide (NUM_KLINE_INIT ≤ p)%nat) as [|Hlt]; [done|].
    assert (drop p cs !! (NUM_KLINE_INIT - 1 - p)%nat = Some c) as Hd.
    { rewrite lookup_drop. rewrite <- Hc. f_equal. lia. }
    pose proof (Forall_lookup_1 _ _ _ _ H2 Hd) as Hgt. simpl in Hgt. lia. }
  assert (rows (init_slice NUM_KLINE_INIT (al_max_time al) df)
          = label_from (Z.of_nat (p - NUM_KLINE_INIT))
                       (drop (p - NUM_KLINE_INIT) (take p cs))) as Hinit.
  { unfold init_slice, tail_rows. cbn [rows].
    rewrite (mask_le_rows _ p _ cs Hr H1 H2), py_last_drop by done.
    rewrite label_from_length, length_take_le by done.
    by rewrite drop_label, Z.add_0_l. }
  assert (rows (replay_slice (al_max_time al) df)
          = label_from (Z.of_nat p) (drop p cs)) as Hreplay.
  { unfold replay_slice. by apply mask_gt_rows. }
  assert (k = Z.of_nat (p - NUM_KLINE_INIT)) as ->.
  { unfold index in Hk. rewrite Hinit in Hk.
    destruct (drop (p - NUM_KLINE_INIT) (take p cs)) as [|c' l] eqn:Hd.
    - apply (f_equal length) in Hd. rewrite length_drop, length_take_le in Hd by done.
      simpl in Hd. lia.
    - simpl in Hk. by injection Hk as <-. }
  exists p, (shift_index (Z.of_nat (p - NUM_KLINE_INIT))
               (init_slice NUM_KLINE_INIT (al_max_time al) df)),
    (shift_index (Z.of_nat (p - NUM_KLINE_INIT)) (replay_slice (al_max_time al) df)).
  split_and!; [done|done|done| |done| |done|done].
  - unfold shift_index. cbn [rows]. rewrite Hinit, shift_label. f_equal. lia.
  - unfold shift_index. cbn [rows]. rewrite Hreplay, shift_label. f_equal. lia.
Qed.

(** Every required timeframe of a symbol whose loading and alignment
    succeeded has an aligned chart over its chronological series. *)
Lemma aligned_charts (cfg : symbol_cfg) (s : gmap string csv_file)
    (charts : gmap string DataFrame) (al : aligned) (tf : string) :
  (0 < NUM_KLINE_INIT)%nat →
  result (load_charts NUM_KLINE_INIT get_required_tfs cfg s) = Ok charts →
  result (align NUM_KLINE_INIT charts s) = Ok al →
  tf ∈ get_required_tfs cfg →
  ∃ df cs, charts !! tf = Some df ∧ rows df = label_from 0 cs ∧
           cs ≡ₚ tf_candles s cfg tf ∧
           StronglySorted Z.le (open_time <$> cs) ∧
           aligned_tf al tf cs.
Proof.
  intros HN Hload Halign Htf.
  destruct (load_charts_ok _ _ _ _ _ Hload) as [Hin _].
  destruct (Hin tf Htf) as ((df & Hdf & cs & Hr & Hp & Hs) & _).
  destruct (align_ok _ _ _ _ Halign) as ([Hmax _] & _ & Hsplit & _).
  exists df, cs. split_and!; [done..|].
  apply (slices_aligned al tf df cs); [done..|by apply (Hmax tf)|by apply Hsplit].
Qed.

(** C2. After a successful alignment with a positive warm-up constant, the
    alignment instant is the greatest, over the required timeframes, of the
    open time of the candle at index warm-up - 1; every required timeframe has
    an init slice of exactly warm-up candles whose last open time is at most
    the alignment instant, and a replay slice whose first open time, when
    there is one, is after it. *)
Theorem alignment_global_start (cfg : symbol_cfg) (s : gmap string csv_file)
    (charts : gmap string DataFrame) (al : aligned) :
  (0 < NUM_KLINE_INIT)%nat →
  result (load_charts NUM_KLINE_INIT get_required_tfs cfg s) = Ok charts →
  result (align NUM_KLINE_INIT charts s) = Ok al →
  (∀ tf, tf ∈ get_required_tfs cfg →
     ∃ df t, charts !! tf = Some df ∧
             iloc_open_time (Z.of_nat NUM_KLINE_INIT - 1) df = Some t ∧
             t ≤ al_max_time al) ∧
  (∃ tf df, tf ∈ get_required_tfs cfg ∧ charts !! tf = Some df ∧
            iloc_open_time (Z.of_nat NUM_KLINE_INIT - 1) df = Some (al_max_time al)) ∧
  (∀ tf, tf ∈ get_required_tfs cfg →
     ∃ init replay,
       al_init al !! tf = Some init ∧ al_replay al !! tf = Some replay ∧
       df_len init = NUM_KLINE_INIT ∧
       (∃ t, last (open_times init) = Some t ∧ t ≤ al_max_time al) ∧
       (∀ t, head (open_times replay) = Some t → al_max_time al < t)).
Proof.
  intros HN Hload Halign.
  destruct (load_charts_ok _ _ _ _ _ Hload) as [Hin Hout].
  destruct (align_ok _ _ _ _ Halign) as ([Hmax Hex] & _).
  split_and!.
  - intros tf Htf. destruct (Hin tf Htf) as ((df & Hdf & _) & _).
    destruct (Hmax tf df Hdf) as (t & Ht & Hle). by exists df, t.
  - destruct Hex as (tf & df & Hdf & Ht). exists tf, df. split_and!; [|done..].
    destruct (decide (tf ∈ get_required_tfs cfg)) as [|Hni]; [done|].
    rewrite (Hout tf Hni) in Hdf. done.
  - intros tf Htf.
    destruct (aligned_charts cfg s charts al tf HN Hload Halign Htf)
      as (df & cs & _ & _ & _ & _ & p & init & replay & Hp & Hi & Hri & Hr & Hrr & H1 & H2).
    exists init, replay. split_and!; [done..| | |].
    + unfold df_len. rewrite Hri, label_from_length, length_drop, length_take_le; lia.
    + unfold open_times. rewrite Hri, list_fmap_compose, label_from_snd.
      assert (Forall (λ c, open_time c ≤ al_max_time al)
                (drop (p - NUM_KLINE_INIT) (take p cs))) as Hall.
      { by apply Forall_drop. }
      rewrite fmap_last.
      destruct (last (drop (p - NUM_KLINE_INIT) (take p cs))) as [c|] eqn:Hlast.
      * exists (open_time c). split; [done|].
        apply last_Some_elem_of in Hlast. by eapply Forall_forall in Hall.
      * apply last_None in Hlast. apply (f_equal length) in Hlast.
        rewrite length_drop, length_take_le in Hlast; simpl in Hlast; lia.
    + intros t. unfold open_times. rewrite Hrr, list_fmap_compose, label_from_snd.
      destruct (drop p cs) as [|c l]; [done|]. simpl. intros [= <-].
      by apply Forall_cons in H2 as [? _].
Qed.

(** C7, as the code has it. After a successful alignment with a positive
    warm-up constant, both slices of every required timeframe are shifted by
    the same offset, the label of the first init candle: the init slice is
    labelled 0, 1, ..., warm-up - 1 and the replay slice continues the
    numbering at warm-up, so a non-empty replay slice starts at index warm-up. *)
Theorem slices_share_one_numbering (cfg : symbol_cfg) (s : gmap string csv_file)
    (charts : gmap string DataFrame) (al : aligned) (tf : string) :
  (0 < NUM_KLINE_INIT)%nat →
  result (load_charts NUM_KLINE_INIT get_required_tfs cfg s) = Ok charts →
  result (align NUM_KLINE_INIT charts s) = Ok al →
  tf ∈ get_required_tfs cfg →
  ∃ init replay,
    al_init al !! tf = Some init ∧ al_replay al !! tf = Some replay ∧
    index init = seqZ 0 (Z.of_nat NUM_KLINE_INIT) ∧
    head (index init) = Some 0 ∧
    index replay = seqZ (Z.of_nat NUM_KLINE_INIT) (Z.of_nat (df_len replay)) ∧
    (rows replay ≠ [] → head (index replay) = Some (Z.of_nat NUM_KLINE_INIT)).
Proof.
  intros HN Hload Halign Htf.
  destruct (aligned_charts cfg s charts al tf HN Hload Halign Htf)
    as (df & cs & _ & _ & _ & _ & p & init & replay & Hp & Hi & Hri & Hr & Hrr & H1 & H2).
  exists init, replay.
  assert (index init = seqZ 0 (Z.of_nat NUM_KLINE_INIT)) as Hii.
  { unfold index. rewrite Hri, label_from_fst, length_drop, length_take_le by lia.
    f_equal. lia. }
  assert (index replay = seqZ (Z.of_nat NUM_KLINE_INIT) (Z.of_nat (df_len replay))) as Hir.
  { unfold index, df_len. by rewrite Hrr, label_from_fst, label_from_length. }
  split_and!; [done..| |done|].
  - rewrite Hii, seqZ_cons by lia. done.
  - intros Hne. rewrite Hir, seqZ_cons; [done|]. unfold df_len.
    destruct (rows replay); [done|]. simpl. lia.
Qed.

End Aligned.

(** ** The replay loop *)

Section Replay.

Variable tf_cron : list (string * cron_time).

(** The clock values at which the body of the loop runs. *)
Fixpoint ticks_from (n : nat) (timer : Z) : list Z :=
  match n with
  | O => []
  | S n' => (timer + 60) :: ticks_from n' (timer + 60)
  end.

Definition ticks (timer end_time : Z) : list Z :=
  ticks_from (replay_fuel timer end_time) timer.

(** The firing rule of [tf] matches the clock value [t]; a timeframe without
    a rule never fires. *)
Definition fires_at (tf : string) (t : Z) : bool :=
  match cron_lookup tf_cron tf with
  | Some c => fires c (hour_of t) (minute_of t)
  | None => false
  end.

(** The number of ticks of the run at which [tf] fires. *)
Definition fire_count (tf : string) (timer end_time : Z) : nat :=
  length (filter (λ t, fires_at tf t = true) (ticks timer end_time)).

(** The frame without its first [k] rows. *)
Definition drop_rows (k : nat) (df : DataFrame) : DataFrame :=
  mkDF (columns df) (drop k (rows df)).

(** How many candles of [tf] one tick pops, and how many the whole run. *)
Definition fired (tfs : list string) (tf : string) (t : Z) : nat :=
  if decide (tf ∈ tfs) then (if fires_at tf t then 1%nat else 0%nat) else 0%nat.

Definition popped (tfs : list string) (tf : string) (timer end_time : Z) : nat :=
  if decide (tf ∈ tfs) then fire_count tf timer end_time else 0%nat.

Lemma drop_rows_0 (df : DataFrame) : drop_rows 0 df = df.
Proof. by destruct df. Qed.

Lemma drop_rows_tail1 (k : nat) (df : DataFrame) :
  drop_rows k (tail1 df) = drop_rows (S k) df.
Proof. unfold drop_rows, tail1. cbn [rows columns]. by rewrite drop_drop. Qed.

Lemma drop_rows_add (a b : nat) (df : DataFrame) :
  drop_rows b (drop_rows a df) = drop_rows (a + b) df.
Proof. unfold drop_rows. cbn [rows columns]. by rewrite drop_drop. Qed.

Lemma cron_lookup_is_Some (d : list (string * cron_time)) (tf : string) :
  is_Some (cron_lookup d tf) ↔ tf ∈ d.*1.
Proof.
  induction d as [|[k c] d IH]; simpl.
  - split; [by intros [? ?]|by intros ?%elem_of_nil].
  - case_decide as Hk; simplify_eq.
    + split; [left|by eexists].
    + rewrite IH. set_solver.
Qed.

Lemma replay_fuel_pos (timer end_time : Z) :
  timer ≤ end_time →
  replay_fuel timer end_time = S (replay_fuel (timer + 60) end_time).
Proof.
  intros Hle. unfold replay_fuel.
  replace (end_time - (timer + 60)) with ((end_time - timer) + (-1) * 60) by lia.
  rewrite Z.div_add by lia.
  assert (0 ≤ (end_time - timer) / 60) by (apply Z.div_pos; lia). lia.
Qed.

Lemma replay_fuel_zero (timer end_time : Z) :
  ¬ timer ≤ end_time → replay_fuel timer end_time = 0%nat.
Proof.
  intros Hgt. unfold replay_fuel.
  assert ((end_time - timer) / 60 < 0) by (apply Z.div_lt_upper_bound; lia). lia.
Qed.

Lemma fire_count_step (tf : string) (timer end_time : Z) :
  timer ≤ end_time →
  fire_count tf timer end_time
  = ((if fires_at tf (timer + 60) then 1 else 0)
     + fire_count tf (timer + 60) end_time)%nat.
Proof.
  intros Hle. unfold fire_count, ticks. rewrite (replay_fuel_pos _ _ Hle).
  cbn [ticks_from]. rewrite filter_cons.
  destruct (fires_at tf (timer + 60)); by case_decide.
Qed.

Lemma fire_count_done (tf : string) (timer end_time : Z) :
  ¬ timer ≤ end_time → fire_count tf timer end_time = 0%nat.
Proof.
  intros Hgt. unfold fire_count, ticks. by rewrite (replay_fuel_zero _ _ Hgt).
Qed.

Lemma delivered_cons (tf : string) (e : event) (t : list event) :
  delivered tf (e :: t) = delivery_of tf e ++ delivered tf t.
Proof. done. Qed.

Lemma delivered_app (tf : string) (t1 t2 : list event) :
  delivered tf (t1 ++ t2) = delivered tf t1 ++ delivered tf t2.
Proof. unfold delivered. by rewrite fmap_app, join_app. Qed.

(** The body of the loop for a timeframe that has a rule and a chart. *)
Lemma fire_tf_run (timer : Z) (chart : gmap string DataFrame) (tf : string)
    (df : DataFrame) (s : gmap string csv_file) :
  tf ∈ tf_cron.*1 → chart !! tf = Some df →
  fire_tf tf_cron timer chart tf s =
  if fires_at tf timer
  then mkRun (Ok (<[tf := tail1 df]> chart)) s [TraderOnKline tf (head1 df)]
  else mkRun (Ok chart) s [].
Proof.
  intros [c Hc]%cron_lookup_is_Some Hdf. unfold fire_tf, fires_at, bind, lift.
  rewrite Hc. cbn [ret result store trace].
  destruct (fires c (hour_of timer) (minute_of timer)); [|done].
  rewrite Hdf. done.
Qed.

(** What a run of the loop, or of one tick of it, does to every timeframe:
    [n tf] candles of [tf] are popped from its chart and handed to
    [on_kline], in order; nothing else is observable. *)
Definition pops (tfs : list string) (n : string → nat) (chart : gmap string DataFrame)
    (s : gmap string csv_file)
    (r : outcome (gmap string DataFrame)) (s' : gmap string csv_file)
    (t : list event) : Prop :=
  s' = s ∧ Forall (is_on_kline_of tfs) t ∧
  ∃ chart', r = Ok chart' ∧
    ∀ tf, chart' !! tf = drop_rows (n tf) <$> chart !! tf ∧
          ∀ df, chart !! tf = Some df → delivered tf t = take (n tf) (rows df).

Lemma tick_run (tfs : list string) (timer : Z) (chart : gmap string DataFrame)
    (s : gmap string csv_file) :
  NoDup tfs →
  (∀ tf, tf ∈ tfs → tf ∈ tf_cron.*1 ∧ is_Some (chart !! tf)) →
  post (for_each tfs chart (fire_tf tf_cron timer)) s
       (pops tfs (λ tf, fired tfs tf timer) chart s).
Proof.
  revert chart. induction tfs as [|tf0 tfs IH]; intros chart Hnd Hok.
  - run_step. split_and!; [done|constructor|]. exists chart. split; [done|].
    intros tf. unfold fired. rewrite decide_False by apply not_elem_of_nil.
    split; [|done]. destruct (chart !! tf) as [df|]; [|done]. simpl.
    by rewrite drop_rows_0.
  - apply NoDup_cons in Hnd as [Hni Hnd].
    destruct (Hok tf0) as [Hc [df0 Hdf0]]; [left|].
    run_step. eapply post_eq; [by apply fire_tf_run|].
    destruct (fires_at tf0 timer) eqn:Hf; cbn [result store trace].
    + eapply post_mono; [apply IH; [done|]|].
      { intros tf Htf. destruct (Hok tf) as [? ?]; [by right|]. split; [done|].
        rewrite lookup_insert_is_Some. destruct (decide (tf0 = tf)); auto. }
      intros r s' t (-> & Ht & chart' & -> & Hch). split_and!; [done| |].
      { constructor; [left|]. eapply Forall_impl; [exact Ht|].
        intros [] ; simpl; try done. by right. }
      exists chart'. split; [done|]. intros tf. destruct (Hch tf) as [H1 H2].
      destruct (decide (tf = tf0)) as [->|Hne].
      * rewrite lookup_insert_eq in H1, H2. unfold fired in *.
        rewrite decide_False in H1, H2 by done. rewrite decide_True by left.
        rewrite Hf, Hdf0. simpl in H1. rewrite drop_rows_tail1 in H1. split; [done|].
        intros df [= <-]. cbn [app]. rewrite delivered_cons. cbn [delivery_of].
        rewrite decide_True by done. rewrite (H2 _ eq_refl). cbn [head1 rows take].
        by rewrite app_nil_r.
      * rewrite lookup_insert_ne in H1, H2 by done.
        assert (fired (tf0 :: tfs) tf timer = fired tfs tf timer) as ->.
        { unfold fired. destruct (decide (tf ∈ tfs)).
          - by rewrite decide_True by by right.
          - rewrite decide_False; [done|]. by intros [?|?]%elem_of_cons. }
        split; [done|]. intros df Hdf. cbn [app]. rewrite delivered_cons.
        cbn [delivery_of]. rewrite decide_False by done. by apply H2.
    + eapply post_mono; [apply IH; [done|]|].
      { intros tf Htf. apply Hok. by right. }
      intros r s' t (-> & Ht & chart' & -> & Hch). split_and!; [done| |].
      { eapply Forall_impl; [exact Ht|]. intros []; simpl; try done. by right. }
      exists chart'. split; [done|]. intros tf. destruct (Hch tf) as [H1 H2].
      assert (fired (tf0 :: tfs) tf timer = fired tfs tf timer) as ->; [|done].
      unfold fired. destruct (decide (tf = tf0)) as [->|Hne].
      * rewrite decide_True by left. rewrite Hf. by rewrite decide_False.
      * destruct (decide (tf ∈ tfs)).
        -- by rewrite decide_True by by right.
        -- rewrite decide_False; [done|]. by intros [?|?]%elem_of_cons.
Qed.

Lemma loop_run (fuel : nat) (tfs : list string) (timer end_time : Z)
    (chart : gmap string DataFrame) (s : gmap string csv_file) :
  NoDup tfs →
  (∀ tf, tf ∈ tfs → tf ∈ tf_cron.*1 ∧ is_Some (chart !! tf)) →
  (replay_fuel timer end_time ≤ fuel)%nat →
  post (replay_loop tf_cron fuel tfs timer end_time chart) s
       (pops tfs (λ tf, popped tfs tf timer end_time) chart s).
Proof.
  intros Hnd. revert timer chart.
  induction fuel as [|fuel IH]; intros timer chart Hok Hfuel; cbn [replay_loop];
    destruct (decide (timer ≤ end_time)) as [Hle|Hgt].
  - rewrite (replay_fuel_pos _ _ Hle) in Hfuel. lia.
  - run_step. split_and!; [done|constructor|]. exists chart. split; [done|].
    intros tf. unfold popped. rewrite (fire_count_done _ _ _ Hgt).
    replace (if decide (tf ∈ tfs) then 0%nat else 0%nat) with 0%nat by by case_decide.
    split; [|done]. destruct (chart !! tf); [|done]. simpl. by rewrite drop_rows_0.
  - rewrite (replay_fuel_pos _ _ Hle) in Hfuel. run_step.
    eapply post_mono; [by apply tick_run|].
    intros r s' t (-> & Ht & chart1 & -> & Hch1).
    eapply post_mono; [apply (IH (timer + 60) chart1)|].
    { intros tf Htf. destruct (Hok tf Htf) as [? [df Hdf]]. split; [done|].
      destruct (Hch1 tf) as [-> _]. rewrite Hdf. by eexists. }
    { lia. }
    intros r s' t' (-> & Ht' & chart' & -> & Hch'). split_and!; [done|by apply Forall_app|].
    exists chart'. split; [done|]. intros tf.
    destruct (Hch1 tf) as [H1 H2], (Hch' tf) as [H1' H2'].
    assert (popped tfs tf timer end_time
            = (fired tfs tf (timer + 60) + popped tfs tf (timer + 60) end_time)%nat) as ->.
    { unfold popped, fired. case_decide; [|done]. by apply fire_count_step. }
    split.
    + rewrite H1', H1. destruct (chart !! tf) as [df|]; [|done]. simpl.
      by rewrite drop_rows_add.
    + intros df Hdf. rewrite delivered_app, (H2 _ Hdf).
      rewrite H1, Hdf in H2'. rewrite (H2' _ eq_refl). cbn [drop_rows rows].
      apply take_take_drop.
  - run_step. split_and!; [done|constructor|]. exists chart. split; [done|].
    intros tf. unfold popped. rewrite (fire_count_done _ _ _ Hgt).
    replace (if decide (tf ∈ tfs) then 0%nat else 0%nat) with 0%nat by by case_decide.
    split; [|done]. destruct (chart !! tf); [|done]. simpl. by rewrite drop_rows_0.
Qed.

(** The clock values of the loop: the clock is tested against [end_time]
    before it is advanced by sixty seconds, so the body runs at
    [timer + 60 * i] for [i] from one to [(end_time - timer) div 60 + 1],
    and the last of these values is after [end_time]. *)
Lemma ticks_from_seqZ (n : nat) (timer : Z) :
  ticks_from n timer = (λ i, timer + 60 * i) <$> seqZ 1 (Z.of_nat n).
Proof.
  revert timer. induction n as [|n IH]; intros timer; [done|].
  cbn [ticks_from]. rewrite IH.
  assert (0 < Z.of_nat (S n)) as Hpos by lia. rewrite (seqZ_cons 1 _ Hpos).
  rewrite fmap_cons. f_equal; try lia.
  replace (Z.pred (Z.of_nat (S n))) with (Z.of_nat n) by lia.
  replace (Z.succ 1) with (1 + 1) by lia.
  rewrite <- (fmap_add_seqZ 1 1), <- list_fmap_compose.
  apply list_fmap_ext. intros ? k ?. simpl. lia.
Qed.

Lemma ticks_seqZ (timer end_time : Z) :
  ticks timer end_time
  = (λ i, timer + 60 * i) <$> seqZ 1 ((end_time - timer) `div` 60 + 1).
Proof.
  unfold ticks. rewrite ticks_from_seqZ. unfold replay_fuel, seqZ.
  by rewrite Nat2Z.id.
Qed.

End Replay.

(** ** One symbol's backtest *)

Section Backtest.

Variable NUM_KLINE_INIT : nat.
Variable tf_cron : list (string * cron_time).
Variable get_required_tfs : symbol_cfg → list string.

Lemma elem_of_required_tfs (cfg : symbol_cfg) (tf : string) :
  tf ∈ required_tfs tf_cron get_required_tfs cfg
  ↔ tf ∈ get_required_tfs cfg ∧ tf ∈ tf_cron.*1.
Proof. unfold required_tfs. by rewrite list_elem_of_filter. Qed.

(** The replay phase leaves the storage alone and its events are [on_kline]
    calls for timeframes of the loop's list, whatever the charts. *)
Lemma tick_events (tfs0 tfs : list string) (timer : Z) (chart : gmap string DataFrame)
    (s : gmap string csv_file) :
  (∀ tf, tf ∈ tfs → tf ∈ tfs0) →
  post (for_each tfs chart (fire_tf tf_cron timer)) s
       (λ _ s' t, s' = s ∧ Forall (is_on_kline_of tfs0) t).
Proof.
  revert chart. induction tfs as [|tf tfs IH]; intros chart Hsub.
  - run_step. split; [done|constructor].
  - run_step. unfold fire_tf at 1. do 2 run_step.
    destruct (cron_lookup tf_cron tf) as [c|]; [|split; [done|constructor]].
    destruct (fires c (hour_of timer) (minute_of timer)).
    + do 2 run_step. destruct (chart !! tf) as [df|]; [|split; [done|constructor]].
      do 3 run_step. eapply post_mono; [apply IH|].
      * intros tf' ?. apply Hsub. by right.
      * intros r' s' t [-> Ht]. split; [done|]. cbn [app].
        constructor; [|done]. apply Hsub. left.
    + run_step. eapply post_mono; [apply IH|]; [|done].
      intros tf' ?. apply Hsub. by right.
Qed.

Lemma loop_events (fuel : nat) (tfs : list string) (timer end_time : Z)
    (chart : gmap string DataFrame) (s : gmap string csv_file) :
  post (replay_loop tf_cron fuel tfs timer end_time chart) s
       (λ _ s' t, s' = s ∧ Forall (is_on_kline_of tfs) t).
Proof.
  revert timer chart. induction fuel as [|fuel IH]; intros timer chart;
    cbn [replay_loop]; destruct (decide (timer ≤ end_time));
    try (split; [done|constructor]).
  run_step. eapply post_mono; [by apply (tick_events tfs)|].
  intros [chart'| |] s' t [-> Ht]; [|done..].
  eapply post_mono; [apply IH|]. intros r' s'' t' [-> Ht']. split; [done|].
  by apply Forall_app.
Qed.

(** The calls a backtest makes after building its [Trader]. *)
Definition backtest_event (cfg : symbol_cfg) (e : event) : Prop :=
  match e with
  | Log _ _ | TraderInitStrategies | TraderInitChart _ | TraderAttachOms => True
  | TraderOnKline tf _ => tf ∈ required_tfs tf_cron get_required_tfs cfg
  | _ => False
  end.

(** Whatever its outcome, a backtest builds one trader, first of all, leaves
    the storage as it was and, when it returns, returns that trader. *)
Lemma backtest_events (cfg : symbol_cfg) (s : gmap string csv_file) :
  let r := backtest_bot_trader NUM_KLINE_INIT tf_cron get_required_tfs cfg s in
  (∃ rest, trace r = TraderNew cfg :: rest ∧ Forall (backtest_event cfg) rest) ∧
  store r = s ∧
  (∀ tr, result r = Ok tr → tr = mkTrader cfg).
Proof.
  assert (post (backtest_bot_trader NUM_KLINE_INIT tf_cron get_required_tfs cfg) s
            (λ r s' t, (∃ rest, t = TraderNew cfg :: rest ∧
                                Forall (backtest_event cfg) rest) ∧
                       s' = s ∧ ∀ tr, r = Ok tr → tr = mkTrader cfg)) as H; [|exact H].
  assert (∀ t, Forall is_log t → Forall (backtest_event cfg) t) as Hlog.
  { intros t Ht. eapply Forall_impl; [exact Ht|]. by intros []. }
  unfold backtest_bot_trader. do 5 run_step.
  eapply post_mono; [apply load_charts_from|].
  intros r s' t (-> & Ht & _). destruct r as [charts| |].
  - run_step. eapply post_mono; [apply align_post|].
    intros r s' t' (-> & -> & _). destruct r as [al| |].
    + do 7 run_step. eapply post_mono; [apply loop_events|].
      intros r s' t' [-> Ht'].
      assert (Forall (backtest_event cfg) t') as Hev.
      { eapply Forall_impl; [exact Ht'|]. by intros []. }
      destruct r; [run_step|..];
        (split_and!; [|done|by intros ? [=]]; eexists; split; [done|]; constructor; [done|];
         apply Forall_app; split; [by apply Hlog|];
         cbn [app]; do 3 (constructor; [done|]); by rewrite ?app_nil_r).
    + split_and!; [|done..]. eexists. split; [done|]. constructor; [done|].
      rewrite app_nil_r. by apply Hlog.
    + split_and!; [|done..]. eexists. split; [done|]. constructor; [done|].
      rewrite app_nil_r. by apply Hlog.
  - split_and!; [|done..]. eexists. split; [done|]. constructor; [done|]. by apply Hlog.
  - split_and!; [|done..]. eexists. split; [done|]. constructor; [done|]. by apply Hlog.
Qed.

Lemma load_charts_quiet (cfg : symbol_cfg) (s : gmap string csv_file) :
  store (load_charts NUM_KLINE_INIT get_required_tfs cfg s) = s ∧
  Forall is_log (trace (load_charts NUM_KLINE_INIT get_required_tfs cfg s)).
Proof.
  by destruct (load_charts_from NUM_KLINE_INIT cfg (get_required_tfs cfg) ∅ s)
    as (? & ? & _).
Qed.

Lemma delivered_logs (tf : string) (t : list event) :
  Forall is_log t → delivered tf t = [].
Proof.
  induction 1 as [|e t He _ IH]; [done|]. rewrite delivered_cons, IH.
  by destruct e.
Qed.

Lemma fire_count_uncronned (tf : string) (timer end_time : Z) :
  tf ∉ tf_cron.*1 → fire_count tf_cron tf timer end_time = 0%nat.
Proof.
  intros Hni. unfold fire_count.
  assert (∀ t, fires_at tf_cron tf t = false) as Hf.
  { intros t. unfold fires_at. destruct (cron_lookup tf_cron tf) eqn:E; [|done].
    destruct Hni. apply cron_lookup_is_Some. by eexists. }
  induction (ticks timer end_time) as [|t l IH]; [done|].
  rewrite filter_cons_False; [done|]. by rewrite Hf.
Qed.

(** The run of a backtest whose loading and alignment succeed: it returns
    the trader, leaves the storage as it was, and after the three calls that
    follow alignment it makes [on_kline] calls only, which hand over, for
    every timeframe, as many candles from the head of its replay slice as the
    timeframe fired. *)
Lemma backtest_run (cfg : symbol_cfg) (s : gmap string csv_file)
    (charts : gmap string DataFrame) (al : aligned) :
  NoDup tf_cron.*1 →
  result (load_charts NUM_KLINE_INIT get_required_tfs cfg s) = Ok charts →
  result (align NUM_KLINE_INIT charts s) = Ok al →
  let r := backtest_bot_trader NUM_KLINE_INIT tf_cron get_required_tfs cfg s in
  result r = Ok (mkTrader cfg) ∧ store r = s ∧
  ∃ evs,
    trace r = [TraderNew cfg; TraderInitStrategies]
              ++ trace (load_charts NUM_KLINE_INIT get_required_tfs cfg s)
              ++ [TraderInitChart (al_init al); TraderAttachOms;
                  Log INFO (MsgStartTimer (al_max_time al) (al_end_time al))]
              ++ evs ∧
    Forall (is_on_kline_of (required_tfs tf_cron get_required_tfs cfg)) evs ∧
    ∀ tf replay, al_replay al !! tf = Some replay →
      delivered tf evs
      = take (popped tf_cron (required_tfs tf_cron get_required_tfs cfg) tf
                     (al_max_time al) (al_end_time al))
             (rows replay).
Proof.
  intros Hnd Hload Halign.
  assert (post (backtest_bot_trader NUM_KLINE_INIT tf_cron get_required_tfs cfg) s
    (λ r s' t, r = Ok (mkTrader cfg) ∧ s' = s ∧
       ∃ evs,
         t = [TraderNew cfg; TraderInitStrategies]
             ++ trace (load_charts NUM_KLINE_INIT get_required_tfs cfg s)
             ++ [TraderInitChart (al_init al); TraderAttachOms;
                 Log INFO (MsgStartTimer (al_max_time al) (al_end_time al))]
             ++ evs ∧
         Forall (is_on_kline_of (required_tfs tf_cron get_required_tfs cfg)) evs ∧
         ∀ tf replay, al_replay al !! tf = Some replay →
           delivered tf evs
           = take (popped tf_cron (required_tfs tf_cron get_required_tfs cfg) tf
                          (al_max_time al) (al_end_time al))
                  (rows replay))) as H; [|exact H].
  destruct (load_charts_quiet cfg s) as [Hst _].
  destruct (align_silent NUM_KLINE_INIT charts s) as [Hst' Htr'].
  destruct (load_charts_ok _ _ _ _ _ Hload) as [Hin _].
  destruct (align_ok _ _ _ _ Halign) as (_ & _ & Hsplit & _).
  unfold backtest_bot_trader. do 5 run_step.
  eapply post_known; [exact Hload|]. rewrite Hst. run_step.
  eapply post_known; [exact Halign|]. rewrite Hst', Htr'. do 7 run_step.
  eapply post_mono; [apply loop_run|].
  - unfold required_tfs. by apply NoDup_filter.
  - intros tf [Hreq Hkey]%elem_of_required_tfs. split; [done|].
    destruct (Hin tf Hreq) as ((df & Hdf & _) & _).
    destruct (Hsplit tf df Hdf) as (k & _ & _ & ->). by eexists.
  - done.
  - intros r s' t (-> & Ht & chart' & -> & Hch). run_step.
    split_and!; [done..|]. exists t. split_and!; [|done|].
    + cbn [app]. by rewrite !app_nil_r.
    + intros tf replay Hrep. by apply (Hch tf).
Qed.

(** A chronological list of distinct times is strictly increasing. *)
Lemma sorted_nodup_strict (l : list Z) :
  StronglySorted Z.le l → NoDup l → StronglySorted Z.lt l.
Proof.
  induction 1 as [|x l Hs IH Hall]; intros Hnd; [constructor|].
  apply NoDup_cons in Hnd as [Hni Hnd]. constructor; [by apply IH|].
  apply Forall_forall. intros y Hy.
  pose proof (proj1 (Forall_forall _ _) Hall y Hy) as Hle.
  assert (x ≠ y) by (by intros ->). lia.
Qed.

Lemma take_all_iff {A} (k : nat) (l : list A) : take k l = l ↔ (length l ≤ k)%nat.
Proof.
  split.
  - intros Heq. apply (f_equal length) in Heq. rewrite length_take in Heq. lia.
  - apply take_ge.
Qed.

(** The replay slice of a timeframe is a tail of its chronological series. *)
Lemma replay_is_tail (al : aligned) (tf : string) (df : DataFrame) (cs : list Candle) :
  rows df = label_from 0 cs →
  StronglySorted Z.le (open_time <$> cs) →
  split_at NUM_KLINE_INIT (al_max_time al) tf df (al_init al) (al_replay al) →
  ∃ replay p, al_replay al !! tf = Some replay ∧
              open_times replay = drop p (open_time <$> cs).
Proof.
  intros Hr Hs (k & _ & _ & Hrep).
  destruct (sorted_split (al_max_time al) cs Hs) as (p & Hp & H1 & H2).
  eexists _, p. split; [exact Hrep|].
  unfold open_times, shift_index, replay_slice. cbn [rows].
  rewrite (mask_gt_rows _ p _ cs Hp Hr H1 H2), shift_label.
  by rewrite list_fmap_compose, label_from_snd, fmap_drop.
Qed.

(** C1, as the code has it. For a symbol whose loading and alignment succeed
    and every required timeframe, the rows handed to [on_kline] over the run
    are, in order and once each, the first [k] rows of the timeframe's replay
    slice, where [k] is the number of ticks at which the timeframe fires (none
    for a timeframe without a rule in [tf_cron]). The ticks are the clock
    values [max_time + 60 * i] for [i] from one to
    [(end_time - max_time) div 60 + 1]: the loop tests the clock against
    [end_time] before advancing it, so the last tick is after [end_time], and
    it counts. The replay slice is in chronological order, strictly so when
    the stored candles of the timeframe have distinct open times; and the
    whole slice is delivered exactly when it is no longer than the number of
    firings. *)
Theorem replay_delivers_fired_prefix (cfg : symbol_cfg) (s : gmap string csv_file)
    (charts : gmap string DataFrame) (al : aligned) (tf : string) :
  NoDup tf_cron.*1 →
  result (load_charts NUM_KLINE_INIT get_required_tfs cfg s) = Ok charts →
  result (align NUM_KLINE_INIT charts s) = Ok al →
  tf ∈ get_required_tfs cfg →
  let r := backtest_bot_trader NUM_KLINE_INIT tf_cron get_required_tfs cfg s in
  let k := fire_count tf_cron tf (al_max_time al) (al_end_time al) in
  k = length (filter (λ t, fires_at tf_cron tf t = true)
                ((λ i, al_max_time al + 60 * i)
                   <$> seqZ 1 ((al_end_time al - al_max_time al) `div` 60 + 1))) ∧
  ∃ replay,
    al_replay al !! tf = Some replay ∧
    delivered tf (trace r) = take k (rows replay) ∧
    StronglySorted Z.le (open_times replay) ∧
    (NoDup (open_time <$> tf_candles s cfg tf) →
     StronglySorted Z.lt (open_times replay)) ∧
    (delivered tf (trace r) = rows replay ↔ (df_len replay ≤ k)%nat).
Proof.
  intros Hnd Hload Halign Htf r k.
  split; [unfold k, fire_count; by rewrite ticks_seqZ|].
  destruct (backtest_run cfg s charts al Hnd Hload Halign)
    as (_ & _ & evs & Htr & _ & Hdel).
  destruct (load_charts_quiet cfg s) as [_ Hlogs].
  destruct (load_charts_ok _ _ _ _ _ Hload) as [Hin _].
  destruct (Hin tf Htf) as ((df & Hdf & cs & Hr & Hp & Hs) & _).
  destruct (align_ok _ _ _ _ Halign) as (_ & _ & Hsplit & _).
  destruct (replay_is_tail al tf df cs Hr Hs (Hsplit tf df Hdf))
    as (replay & p & Hrep & Hot).
  assert (StronglySorted Z.le (open_times replay)) as Hsorted.
  { rewrite Hot. rewrite <- (take_drop p (open_time <$> cs)) in Hs.
    by apply StronglySorted_app_1_r in Hs. }
  assert (delivered tf (trace r) = take k (rows replay)) as Hd.
  { unfold r. rewrite Htr, !delivered_app, (delivered_logs _ _ Hlogs).
    cbn [delivered fmap list_fmap delivery_of mjoin list_join app].
    fold (delivered tf evs). rewrite (Hdel tf replay Hrep). unfold popped, k.
    case_decide as Hreq; [done|].
    rewrite fire_count_uncronned; [done|].
    intros Hkey. apply Hreq. by apply elem_of_required_tfs. }
  exists replay. split_and!; [done..| |].
  - intros Hnodup. apply sorted_nodup_strict; [done|]. rewrite Hot.
    assert (NoDup (open_time <$> cs)) as Hnd' by by rewrite Hp.
    rewrite <- (take_drop p (open_time <$> cs)) in Hnd'.
    by apply NoDup_app in Hnd' as (_ & _ & ?).
  - rewrite Hd. apply take_all_iff.
Qed.


(** Failing fast. When some required timeframe yields fewer candles than the
    warm-up constant across the configured months, or no candle at all, the
    backtest of the symbol ends with an error raised while loading, and up to
    that error neither [init_chart] nor [on_kline] was called. The error is
    the [ValueError] naming a timeframe without data, or with too few candles
    and its counts, when the files of that timeframe load; otherwise it is
    the error of the file that does not load: [EmptyDataError] of
    [pd.read_csv] for a file without header line, [KeyError] for records
    under a header without ["Open time"]. *)
Theorem short_timeframe_fails_fast (cfg : symbol_cfg) (s : gmap string csv_file)
    (tf : string) :
  tf ∈ get_required_tfs cfg →
  (candle_count s cfg tf < NUM_KLINE_INIT)%nat ∨ candle_count s cfg tf = 0%nat →
  let r := backtest_bot_trader NUM_KLINE_INIT tf_cron get_required_tfs cfg s in
  (∃ e tf', result r = Raise e ∧ tf' ∈ get_required_tfs cfg ∧
            load_error NUM_KLINE_INIT s cfg tf' e) ∧
  Forall (λ ev, ¬ is_delivery ev) (trace r).
Proof.
  intros Htf Hshort r.
  assert (post (backtest_bot_trader NUM_KLINE_INIT tf_cron get_required_tfs cfg) s
    (λ r _ t, (∃ e tf', r = Raise e ∧ tf' ∈ get_required_tfs cfg ∧
                        load_error NUM_KLINE_INIT s cfg tf' e) ∧
              Forall (λ ev, ¬ is_delivery ev) t)) as H; [|exact H].
  unfold backtest_bot_trader. do 5 run_step.
  eapply post_mono; [apply load_charts_from|].
  intros r' s' t (-> & Ht & Hr). destruct r' as [charts|e|]; [| |done].
  - destruct Hr as [Hin _]. destruct (Hin tf Htf) as (_ & ? & ? & _). lia.
  - destruct Hr as (tf' & Htf' & He). split; [by exists e, tf'|].
    cbn [app]. do 2 (constructor; [by intros []|]).
    eapply Forall_impl; [exact Ht|]. intros []; simpl; tauto.
Qed.

(** C10. A timeframe the trader requires but [tf_cron] has no rule for is
    never handed to [on_kline]; when loading and alignment succeed the
    backtest returns normally, and after the start-of-replay message the
    trace holds [on_kline] calls only, all for timeframes that have a rule:
    no error is raised and nothing is logged on account of the timeframe. *)
Theorem uncronned_timeframe_never_fires (cfg : symbol_cfg) (s : gmap string csv_file)
    (tf : string) :
  tf ∈ get_required_tfs cfg →
  tf ∉ tf_cron.*1 →
  let r := backtest_bot_trader NUM_KLINE_INIT tf_cron get_required_tfs cfg s in
  (∀ kline, TraderOnKline tf kline ∉ trace r) ∧
  delivered tf (trace r) = [] ∧
  (∀ charts al,
     NoDup tf_cron.*1 →
     result (load_charts NUM_KLINE_INIT get_required_tfs cfg s) = Ok charts →
     result (align NUM_KLINE_INIT charts s) = Ok al →
     result r = Ok (mkTrader cfg) ∧
     ∃ evs,
       trace r = [TraderNew cfg; TraderInitStrategies]
                 ++ trace (load_charts NUM_KLINE_INIT get_required_tfs cfg s)
                 ++ [TraderInitChart (al_init al); TraderAttachOms;
                     Log INFO (MsgStartTimer (al_max_time al) (al_end_time al))]
                 ++ evs ∧
       Forall (is_on_kline_of (tf_cron.*1)) evs).
Proof.
  intros Htf Hni r.
  destruct (backtest_events cfg s) as ((rest & Htr & Hrest) & _). fold r in Htr.
  assert (∀ kline, TraderOnKline tf kline ∉ trace r) as Hnever.
  { intros kline Hin. rewrite Htr in Hin.
    apply elem_of_cons in Hin as [?|Hin]; [done|].
    pose proof (proj1 (Forall_forall _ _) Hrest _ Hin) as Hev. simpl in Hev.
    by apply elem_of_required_tfs in Hev as [_ ?]. }
  split_and!; [done| |].
  - clear Htr Hrest. induction (trace r) as [|e t IH]; [done|].
    rewrite delivered_cons, IH.
    + destruct e; try done. simpl. case_decide; [|done]. subst.
      destruct (Hnever kline). left.
    + intros kline Hin. apply (Hnever kline). by right.
  - intros charts al Hnd Hload Halign.
    destruct (backtest_run cfg s charts al Hnd Hload Halign)
      as (Hres & _ & evs & Hevs & Hall & _).
    split; [done|]. exists evs. split; [done|].
    eapply Forall_impl; [exact Hall|]. intros []; simpl; try done.
    by intros [_ ?]%elem_of_required_tfs.
Qed.

End Backtest.

(** ** Data provisioning *)

Section Provisioning.

Variable mt5_initialize : bool.
Variable mt5_login : Z → string → bool.
Variable mt5_account_info : bool.
Variable mt5_copy_rates_range : string → mt5_timeframe → Z → Z → rates_result.
Variable time_timezone : Z.
Variable symbols_config : list symbol_cfg.
Variable exchange_config_file : option exchange_configs.

(** The required files absent from the storage, in the order of the check. *)
Definition missing_files (s : gmap string csv_file) : list RequiredFile :=
  filter (λ f, s !! file_name f = None) (elements (get_required_data_files symbols_config)).

(** A year and a month [datetime] accepts. *)
Definition valid_date (f : RequiredFile) : Prop :=
  match f with (_, _, y, m) => 1 ≤ y ≤ 9999 ∧ 1 ≤ m ≤ 12 end.

(** The fetch of one tuple succeeds: the interval is supported and the
    terminal returns at least one bar for the month. *)
Definition fetch_ok (f : RequiredFile) : bool :=
  match f with
  | (sym, interval, y, m) =>
      match TIMEFRAME_MAP interval,
            utc_timestamp y m 1 0 0 0,
            utc_timestamp y m (days_in_month y m) 23 59 59 with
      | Some tf, Some from_date, Some to_date =>
          match mt5_copy_rates_range sym tf from_date to_date with
          | Rates rs => negb (bool_decide (length rs = 0%nat))
          | _ => false
          end
      | _, _, _ => false
      end
  end.

(** A provider is configured and the terminal accepts the log-in. *)
Definition provider_ready : bool :=
  match exchange_config_file with
  | Some ex =>
      match mt5_entry ex with
      | Some cfg => mt5_initialize && mt5_login (account cfg) (server cfg) && mt5_account_info
      | None => false
      end
  | None => false
  end.

(** The tuples of [files_by_symbol], symbol after symbol. *)
Definition flatten_groups (groups : list (string * list (string * Z * Z)))
  : list RequiredFile :=
  groups ≫= λ g, (λ x : string * Z * Z, (g.1, x.1.1, x.1.2, x.2)) <$> g.2.

Definition quiet (t : list event) : Prop :=
  Forall (λ e, backtested_of e = None) t.

Lemma days_in_month_bounds (y m : Z) : 28 ≤ days_in_month y m ≤ 31.
Proof. unfold days_in_month. repeat case_match; lia. Qed.

Lemma utc_timestamp_valid (y m d hh mm ss : Z) :
  1 ≤ y ≤ 9999 → 1 ≤ m ≤ 12 → 1 ≤ d ≤ days_in_month y m →
  is_Some (utc_timestamp y m d hh mm ss).
Proof. intros. unfold utc_timestamp. rewrite decide_True by done. by eexists. Qed.

Lemma fetches_app (t1 t2 : list event) : fetches (t1 ++ t2) = fetches t1 ++ fetches t2.
Proof. apply omap_app. Qed.

Lemma quiet_app (t1 t2 : list event) : quiet t1 → quiet t2 → quiet (t1 ++ t2).
Proof. intros. by apply Forall_app. Qed.

Lemma quiet_backtested (t : list event) : quiet t → backtested t = [].
Proof.
  induction 1 as [|e t He _ IH]; [done|]. destruct e; try done; exact IH.
Qed.

(** One call of the download routine for a valid month: a single fetch
    attempt, whose verdict is [fetch_ok]. *)
Lemma download_monthly_run (sym interval : string) (m y : Z) (s : gmap string csv_file) :
  valid_date (sym, interval, y, m) →
  post (download_monthly_data mt5_copy_rates_range time_timezone sym interval m y) s
       (λ r _ t, r = Ok (fetch_ok (sym, interval, y, m)) ∧
                 fetches t = [(sym, interval, y, m)] ∧ quiet t).
Proof.
  intros [Hy Hm]. unfold download_monthly_data, fetch_ok.
  pose proof (days_in_month_bounds y m) as Hd.
  destruct (utc_timestamp_valid y m 1 0 0 0 Hy Hm) as [from_date ->]; [lia|].
  destruct (utc_timestamp_valid y m (days_in_month y m) 23 59 59 Hy Hm) as [to_date ->]; [lia|].
  do 2 run_step. destruct (TIMEFRAME_MAP interval) as [tf|].
  - do 4 run_step.
    destruct (mt5_copy_rates_range sym tf from_date to_date) as [|rs|].
    + do 3 run_step. split_and!; [done..|]. by repeat constructor.
    + destruct (decide (length rs = 0%nat)) as [Hz|Hnz].
      * do 3 run_step. rewrite bool_decide_eq_true_2 by done.
        split_and!; [done..|]. by repeat constructor.
      * do 5 run_step. rewrite bool_decide_eq_false_2 by done.
        split_and!; [done..|]. by repeat constructor.
    + do 3 run_step. split_and!; [done..|]. by repeat constructor.
  - do 3 run_step. split_and!; [done..|]. by repeat constructor.
Qed.

(** The number of tuples of a list whose fetch succeeds. *)
Definition count_ok (l : list RequiredFile) : nat :=
  length (filter (λ f, fetch_ok f = true) l).

Lemma download_files_run (sym : string) (file_list : list (string * Z * Z))
    (successful : nat) (s : gmap string csv_file) :
  Forall valid_date (flatten_groups [(sym, file_list)]) →
  post (for_each file_list successful
          (download_file mt5_copy_rates_range time_timezone sym)) s
       (λ r _ t, r = Ok (successful + count_ok (flatten_groups [(sym, file_list)]))%nat ∧
                 fetches t = flatten_groups [(sym, file_list)] ∧ quiet t).
Proof.
  unfold flatten_groups. cbn [mbind list_bind fst snd]. rewrite app_nil_r.
  revert successful s. induction file_list as [|[[interval y] m] l IH];
    intros successful s Hv.
  - run_step. split_and!; [|done|constructor]. unfold count_ok. simpl. f_equal; lia.
  - rewrite fmap_cons in Hv. apply Forall_cons in Hv as [Hv1 Hv].
    run_step. unfold download_file at 1. run_step.
    eapply post_mono; [by apply download_monthly_run|].
    intros r s' t (-> & Hf & Hq). run_step.
    eapply post_mono; [by apply IH|].
    intros r s'' t' (-> & Hf' & Hq'). split_and!.
    + f_equal. unfold count_ok. rewrite fmap_cons, filter_cons. cbn [fst snd].
      destruct (fetch_ok (sym, interval, y, m)); case_decide; try done; simpl; lia.
    + rewrite app_nil_r, fetches_app, Hf, Hf'. done.
    + rewrite app_nil_r. by apply quiet_app.
Qed.

Lemma flatten_groups_cons (g : string * list (string * Z * Z))
    (groups : list (string * list (string * Z * Z))) :
  flatten_groups (g :: groups) = flatten_groups [g] ++ flatten_groups groups.
Proof. unfold flatten_groups. cbn [mbind list_bind]. by rewrite app_nil_r. Qed.

Lemma count_ok_app (l1 l2 : list RequiredFile) :
  count_ok (l1 ++ l2) = (count_ok l1 + count_ok l2)%nat.
Proof. unfold count_ok. by rewrite filter_app, length_app. Qed.

Lemma download_groups_run (groups : list (string * list (string * Z * Z)))
    (successful : nat) (s : gmap string csv_file) :
  Forall valid_date (flatten_groups groups) →
  post (for_each groups successful
          (download_symbol mt5_copy_rates_range time_timezone)) s
       (λ r _ t, r = Ok (successful + count_ok (flatten_groups groups))%nat ∧
                 fetches t = flatten_groups groups ∧ quiet t).
Proof.
  revert successful s. induction groups as [|[sym file_list] groups IH];
    intros successful s Hv.
  - run_step. split_and!; [|done|constructor]. unfold count_ok. simpl. f_equal; lia.
  - rewrite flatten_groups_cons in Hv. apply Forall_app in Hv as [Hv1 Hv].
    run_step. unfold download_symbol at 1. do 2 run_step.
    eapply post_mono; [by apply download_files_run|].
    intros r s' t (-> & Hf & Hq).
    eapply post_mono; [by apply IH|].
    intros r s'' t' (-> & Hf' & Hq'). split_and!.
    + f_equal. rewrite (flatten_groups_cons (sym, file_list) groups), count_ok_app. lia.
    + rewrite (flatten_groups_cons (sym, file_list) groups), !fetches_app, Hf, Hf'. done.
    + apply quiet_app; [|done]. apply quiet_app; [by repeat constructor|done].
Qed.

Lemma flatten_group_add (sym : string) (x : string * Z * Z)
    (groups : list (string * list (string * Z * Z))) :
  flatten_groups (group_add sym x groups)
  ≡ₚ flatten_groups groups ++ [(sym, x.1.1, x.1.2, x.2)].
Proof.
  induction groups as [|[s0 l] groups IH]; cbn [group_add].
  - done.
  - case_decide as Hs; subst.
    + rewrite !(flatten_groups_cons _ groups). unfold flatten_groups at 1 3.
      cbn [mbind list_bind fst snd]. rewrite !app_nil_r, fmap_app, <- !app_assoc.
      apply Permutation_app_head. cbn [fmap list_fmap]. apply Permutation_app_comm.
    + rewrite (flatten_groups_cons _ (group_add sym x groups)),
        (flatten_groups_cons _ groups), IH. by rewrite <- app_assoc.
Qed.

(** Grouping by symbol keeps every missing tuple, once. *)
Lemma flatten_group_by_symbol (l : list RequiredFile)
    (groups : list (string * list (string * Z * Z))) :
  flatten_groups
    (foldl (λ groups (f : RequiredFile),
              match f with
              | (sym, interval, y, m) => group_add sym (interval, y, m) groups
              end) groups l)
  ≡ₚ flatten_groups groups ++ l.
Proof.
  revert groups. induction l as [|[[[sym interval] y] m] l IH]; intros groups; simpl.
  - by rewrite app_nil_r.
  - rewrite IH, flatten_group_add. by rewrite <- app_assoc.
Qed.

Lemma group_by_symbol_perm (l : list RequiredFile) :
  flatten_groups (group_by_symbol l) ≡ₚ l.
Proof. unfold group_by_symbol. by rewrite flatten_group_by_symbol. Qed.

Lemma count_ok_all (l : list RequiredFile) :
  count_ok l = length l ↔ Forall (λ f, fetch_ok f = true) l.
Proof.
  unfold count_ok. induction l as [|f l IH]; [by split|].
  rewrite filter_cons, Forall_cons. pose proof (length_filter (λ f, fetch_ok f = true) l).
  case_decide; simpl; [|split; [lia|tauto]].
  rewrite <- IH. split; [intros [=]|intros [_ ->]]; done.
Qed.

Lemma initialize_mt5_run (cfg : mt5_config) (s : gmap string csv_file) :
  post (initialize_mt5 mt5_initialize mt5_login mt5_account_info cfg) s
       (λ r s' t, r = Ok (mt5_initialize && mt5_login (account cfg) (server cfg)
                          && mt5_account_info) ∧ s' = s ∧ Forall is_log t).
Proof.
  unfold initialize_mt5.
  destruct mt5_initialize, (mt5_login (account cfg) (server cfg)), mt5_account_info;
    cbn [negb andb]; do 3 run_step; by repeat constructor.
Qed.

Lemma logs_quiet (t : list event) : Forall is_log t → quiet t.
Proof. intros Ht. eapply Forall_impl; [exact Ht|]. by intros []. Qed.

Lemma logs_no_fetch (t : list event) : Forall is_log t → fetches t = [].
Proof.
  induction 1 as [|e t He _ IH]; [done|]. by destruct e.
Qed.

(** The download of the missing files when the provider is ready and the
    months are valid: one fetch per missing tuple, and the verdict is that
    they all succeeded. *)
Lemma download_missing_run (missing : list RequiredFile) (s : gmap string csv_file) :
  provider_ready = true →
  Forall valid_date missing →
  post (download_missing_data mt5_initialize mt5_login mt5_account_info
          mt5_copy_rates_range time_timezone exchange_config_file missing) s
       (λ r _ t, r = Ok (bool_decide (Forall (λ f, fetch_ok f = true) missing)) ∧
                 fetches t ≡ₚ missing ∧ quiet t).
Proof.
  intros Hready Hv. unfold download_missing_data, provider_ready in *.
  destruct exchange_config_file as [ex|]; [|done].
  destruct (mt5_entry ex) as [cfg|]; [|done].
  run_step. eapply post_mono; [apply initialize_mt5_run|].
  intros r s' t (-> & -> & Ht). rewrite Hready. cbn [negb]. do 5 run_step.
  eapply post_mono; [apply download_groups_run|].
  { by rewrite group_by_symbol_perm. }
  intros r s' t' (-> & Hf & Hq). do 5 run_step. split_and!.
  - f_equal. apply bool_decide_ext. rewrite Nat.add_0_l.
    rewrite <- count_ok_all. unfold count_ok.
    by rewrite group_by_symbol_perm.
  - rewrite !fetches_app, (logs_no_fetch _ Ht), Hf. cbn [fetches omap list_omap app fetch_of].
    by rewrite app_nil_r, group_by_symbol_perm.
  - unfold quiet. rewrite !Forall_app. pose proof (logs_quiet _ Ht).
    split_and!; try done; by repeat constructor.
Qed.

(** Without a ready provider nothing is fetched and the verdict is [False]. *)
Lemma download_missing_unready (missing : list RequiredFile) (s : gmap string csv_file) :
  provider_ready = false →
  post (download_missing_data mt5_initialize mt5_login mt5_account_info
          mt5_copy_rates_range time_timezone exchange_config_file missing) s
       (λ r s' t, r = Ok false ∧ s' = s ∧ Forall is_log t).
Proof.
  intros Hready. unfold download_missing_data, provider_ready in *.
  destruct exchange_config_file as [ex|]; [|do 3 run_step; by repeat constructor].
  destruct (mt5_entry ex) as [cfg|]; [|do 3 run_step; by repeat constructor].
  run_step. eapply post_mono; [apply initialize_mt5_run|].
  intros r s' t (-> & -> & Ht). rewrite Hready. cbn [negb]. run_step.
  by rewrite app_nil_r.
Qed.

Lemma check_data_files_run (s : gmap string csv_file) :
  check_data_files_exist symbols_config s
  = mkRun (Ok (bool_decide (length (missing_files s) = 0%nat), missing_files s)) s [].
Proof. done. Qed.

(** C5, as the code has it. When no required file is missing,
    [ensure_data_files] returns true at once, without a fetch. When files are
    missing and no provider is ready (no exchange configuration, no [mt5]
    entry in it, or a failed initialisation or log-in) it returns false
    without a fetch. When files are missing, the provider is ready and the
    configured years and months are calendar dates, it attempts exactly one
    fetch per missing tuple, failures included, and returns true exactly when
    every one of them succeeded. *)
Theorem ensure_data_files_verdict (s : gmap string csv_file) :
  let missing := missing_files s in
  let r := ensure_data_files mt5_initialize mt5_login mt5_account_info
             mt5_copy_rates_range time_timezone symbols_config
             exchange_config_file s in
  (missing = [] →
     r = mkRun (Ok true) s [Log INFO MsgChecking; Log INFO MsgAllExist]) ∧
  (missing ≠ [] → provider_ready = false →
     result r = Ok false ∧ fetches (trace r) = [] ∧ store r = s) ∧
  (missing ≠ [] → provider_ready = true → Forall valid_date missing →
     fetches (trace r) ≡ₚ missing ∧
     result r = Ok (bool_decide (Forall (λ f, fetch_ok f = true) missing))).
Proof.
  intros missing r. split_and!.
  - intros Hm. unfold r, ensure_data_files, bind. cbn [log emit result store trace].
    rewrite check_data_files_run. cbn [result store trace]. fold missing. by rewrite Hm.
  - intros Hm Hready.
    assert (post (ensure_data_files mt5_initialize mt5_login mt5_account_info
                    mt5_copy_rates_range time_timezone symbols_config
                    exchange_config_file) s
              (λ r s' t, r = Ok false ∧ fetches t = [] ∧ s' = s)) as H; [|exact H].
    unfold ensure_data_files. do 3 run_step.
    eapply post_eq; [apply check_data_files_run|]. cbn [result store trace].
    fold missing. rewrite bool_decide_eq_false_2 by by destruct missing.
    do 2 run_step. destruct exchange_config_file as [ex|] eqn:Hex.
    + rewrite <- Hex. eapply post_mono; [by apply download_missing_unready|].
      intros r' s' t (-> & -> & Ht). split_and!; [done| |done].
      cbn [app]. by apply (logs_no_fetch (_ :: _ :: t)); repeat constructor.
    + do 5 run_step. done.
  - intros Hm Hready Hv.
    assert (post (ensure_data_files mt5_initialize mt5_login mt5_account_info
                    mt5_copy_rates_range time_timezone symbols_config
                    exchange_config_file) s
              (λ r _ t, fetches t ≡ₚ missing ∧
                 r = Ok (bool_decide (Forall (λ f, fetch_ok f = true) missing))))
      as H; [|exact H].
    unfold ensure_data_files. do 3 run_step.
    eapply post_eq; [apply check_data_files_run|]. cbn [result store trace].
    fold missing. rewrite bool_decide_eq_false_2 by by destruct missing.
    do 2 run_step. destruct exchange_config_file as [ex|] eqn:Hex.
    + rewrite <- Hex. eapply post_mono; [by apply download_missing_run|].
      intros r' s' t (-> & Ht & _). split; [|done]. cbn [app]. exact Ht.
    + unfold provider_ready in Hready. by rewrite Hex in Hready.
Qed.

End Provisioning.

(** ** The session: [start] *)

Section Start.

Variable NUM_KLINE_INIT : nat.
Variable tf_cron : list (string * cron_time).
Variable get_required_tfs : symbol_cfg → list string.
Variable mt5_initialize : bool.
Variable mt5_login : Z → string → bool.
Variable mt5_account_info : bool.
Variable mt5_copy_rates_range : string → mt5_timeframe → Z → Z → rates_result.
Variable time_timezone : Z.
Variable symbols_config : list symbol_cfg.
Variable exchange_config_file : option exchange_configs.

Lemma for_each_quiet {A B} (l : list A) (acc : B) (body : B → A → M B)
    (s : gmap string csv_file) :
  (∀ b x s', post (body b x) s' (λ _ _ t, quiet t)) →
  post (for_each l acc body) s (λ _ _ t, quiet t).
Proof.
  intros Hbody. revert acc s. induction l as [|x l IH]; intros acc s.
  - run_step. constructor.
  - run_step. eapply post_mono; [apply Hbody|].
    intros [b| |] s' t Ht; [|done..].
    eapply post_mono; [apply IH|]. intros r' s'' t' Ht'. by apply quiet_app.
Qed.

Lemma download_monthly_quiet (sym interval : string) (m y : Z) (s : gmap string csv_file) :
  post (download_monthly_data mt5_copy_rates_range time_timezone sym interval m y) s
       (λ _ _ t, quiet t).
Proof.
  unfold download_monthly_data. do 2 run_step.
  destruct (TIMEFRAME_MAP interval) as [tf|]; [|do 3 run_step; by repeat constructor].
  do 2 run_step. destruct (utc_timestamp y m 1 0 0 0) as [from_date|];
    [|by repeat constructor].
  do 2 run_step.
  destruct (utc_timestamp y m (days_in_month y m) 23 59 59) as [to_date|];
    [|by repeat constructor].
  destruct (mt5_copy_rates_range sym tf from_date to_date) as [|rs|];
    [do 3 run_step; by repeat constructor| |do 3 run_step; by repeat constructor].
  destruct (decide (length rs = 0%nat)); [do 3 run_step|do 5 run_step];
    by repeat constructor.
Qed.

Lemma download_missing_quiet (missing : list RequiredFile) (s : gmap string csv_file) :
  post (download_missing_data mt5_initialize mt5_login mt5_account_info
          mt5_copy_rates_range time_timezone exchange_config_file missing) s
       (λ _ _ t, quiet t).
Proof.
  unfold download_missing_data.
  destruct exchange_config_file as [ex|]; [|do 3 run_step; by repeat constructor].
  destruct (mt5_entry ex) as [cfg|]; [|do 3 run_step; by repeat constructor].
  run_step. eapply post_mono; [apply initialize_mt5_run|].
  intros r s' t (-> & -> & Ht%logs_quiet).
  destruct (_ && _); cbn [negb]; [|run_step; by rewrite app_nil_r].
  do 5 run_step. eapply post_mono.
  { apply for_each_quiet. intros b [sym file_list] s'. unfold download_symbol.
    do 2 run_step. eapply post_mono.
    - apply for_each_quiet. intros b' [[interval y] m] s''. unfold download_file.
      run_step. eapply post_mono; [apply download_monthly_quiet|].
      intros [v| |] s3 t3 Ht3; [run_step|..]; by rewrite ?app_nil_r.
    - intros r' s'' t' Ht'. cbn [app]. by constructor. }
  intros [n| |] s' t' Ht'; [do 5 run_step|..];
    unfold quiet in *; rewrite !Forall_app; split_and!; try done; by repeat constructor.
Qed.

Lemma ensure_data_files_quiet (s : gmap string csv_file) :
  quiet (trace (ensure_data_files mt5_initialize mt5_login mt5_account_info
                  mt5_copy_rates_range time_timezone symbols_config
                  exchange_config_file s)).
Proof.
  assert (post (ensure_data_files mt5_initialize mt5_login mt5_account_info
                  mt5_copy_rates_range time_timezone symbols_config
                  exchange_config_file) s (λ _ _ t, quiet t)) as H; [|exact H].
  unfold ensure_data_files. do 3 run_step.
  eapply post_eq; [apply check_data_files_run|]. cbn [result store trace].
  case_bool_decide; [do 3 run_step; by repeat constructor|].
  do 2 run_step. destruct exchange_config_file as [ex|] eqn:Hex.
  - rewrite <- Hex. eapply post_mono; [apply download_missing_quiet|].
    intros r s' t Ht. cbn [app]. by repeat constructor.
  - do 5 run_step. by repeat constructor.
Qed.

Lemma backtested_app (t1 t2 : list event) :
  backtested (t1 ++ t2) = backtested t1 ++ backtested t2.
Proof. apply omap_app. Qed.

Lemma backtested_log (l : level) (m : message) (t : list event) :
  backtested (Log l m :: t) = backtested t.
Proof. done. Qed.

Lemma backtest_backtested (cfg : symbol_cfg) (s : gmap string csv_file) :
  backtested (trace (backtest_bot_trader NUM_KLINE_INIT tf_cron get_required_tfs cfg s))
  = [cfg].
Proof.
  destruct (backtest_events NUM_KLINE_INIT tf_cron get_required_tfs cfg s)
    as ((rest & -> & Hrest) & _).
  change (backtested (TraderNew cfg :: rest)) with (cfg :: backtested rest).
  f_equal. apply quiet_backtested. eapply Forall_impl; [exact Hrest|]. by intros [].
Qed.

(** The loop of [start] from a counter below two: what it backtests is an
    initial part of the entries up to the cap, and all of them when every one
    of these backtests returns. *)
Lemma start_loop_run (cfgs : list symbol_cfg) (c : nat) (bots : list Trader)
    (s : gmap string csv_file) :
  (c < 2)%nat →
  post (start_loop NUM_KLINE_INIT tf_cron get_required_tfs cfgs c bots) s
       (λ r s' t,
          (∃ k, backtested t = take k (take (2 - c) cfgs)) ∧
          ((∀ cfg, cfg ∈ take (2 - c) cfgs →
              ∃ tr, result (backtest_bot_trader NUM_KLINE_INIT tf_cron
                              get_required_tfs cfg s) = Ok tr) →
           r = Ok (bots ++ (mkTrader <$> take (2 - c) cfgs)) ∧
           backtested t = take (2 - c) cfgs ∧ s' = s)).
Proof.
  revert c bots. induction cfgs as [|cfg cfgs IH]; intros c bots Hc.
  - cbn [start_loop]. run_step. rewrite take_nil. split; [by exists 0%nat|].
    intros _. by rewrite fmap_nil, app_nil_r.
  - cbn [start_loop]. do 3 run_step.
    pose proof (backtest_backtested cfg s) as Hb.
    destruct (backtest_events NUM_KLINE_INIT tf_cron get_required_tfs cfg s)
      as (_ & Hst & Htr).
    eapply post_eq; [reflexivity|].
    destruct (result (backtest_bot_trader NUM_KLINE_INIT tf_cron get_required_tfs cfg s))
      as [tr| |] eqn:Hres.
    + rewrite (Htr tr eq_refl), Hst.
      destruct (decide (2 ≤ S c)%nat) as [Hge|Hlt].
      * assert (c = 1%nat) as -> by lia. run_step. cbn [app take Nat.sub].
        rewrite backtested_log, (app_nil_r (trace _)), Hb, take_0.
        split; [by exists 1%nat|]. intros _. done.
      * assert (c = 0%nat) as -> by lia.
        eapply post_mono; [apply (IH 1%nat); lia|].
        intros r s' t [(k & Hk) Hall]. cbn [app].
        rewrite backtested_log, backtested_app, Hb.
        cbn [Nat.sub take app] in *. split.
        -- exists (S k). by rewrite Hk.
        -- intros Hok. destruct Hall as (-> & -> & ->).
           { intros cfg' Hin. apply Hok. by right. }
           by rewrite <- app_assoc.
    + cbn [app]. rewrite backtested_log, Hb. split.
      * exists 1%nat. destruct c as [|[|c]]; [done..|lia].
      * intros Hok. destruct (Hok cfg) as [tr Htr']; [|congruence].
        destruct c as [|[|c]]; [left..|lia].
    + cbn [app]. rewrite backtested_log, Hb. split.
      * exists 1%nat. destruct c as [|[|c]]; [done..|lia].
      * intros Hok. destruct (Hok cfg) as [tr Htr']; [|congruence].
        destruct c as [|[|c]]; [left..|lia].
Qed.

(** C9, as the code has it. [start] backtests symbol entries in configuration
    order and never beyond the second: the entries backtested are an initial
    part of the first two. When the data check succeeds and each backtest of
    the first two entries returns, they are exactly the first min(n, 2)
    entries, whatever the number n of configured entries; when the data check
    does not succeed, no entry is backtested. *)
Theorem start_backtests_first_two (s : gmap string csv_file) :
  let r := start NUM_KLINE_INIT tf_cron get_required_tfs mt5_initialize mt5_login
             mt5_account_info mt5_copy_rates_range time_timezone symbols_config
             exchange_config_file s in
  let r0 := ensure_data_files mt5_initialize mt5_login mt5_account_info
              mt5_copy_rates_range time_timezone symbols_config
              exchange_config_file s in
  (∃ k, backtested (trace r) = take k (take 2 symbols_config)) ∧
  (result r0 = Ok true →
   (∀ cfg, cfg ∈ take 2 symbols_config →
      ∃ tr, result (backtest_bot_trader NUM_KLINE_INIT tf_cron get_required_tfs cfg
                      (store r0)) = Ok tr) →
   result r = Ok (mkTrader <$> take 2 symbols_config) ∧
   backtested (trace r) = take 2 symbols_config ∧
   length (backtested (trace r)) = Nat.min (length symbols_config) 2) ∧
  (result r0 ≠ Ok true → backtested (trace r) = []).
Proof.
  intros r r0.
  pose proof (ensure_data_files_quiet s) as Hq. fold r0 in Hq.
  apply quiet_backtested in Hq.
  assert (post (start NUM_KLINE_INIT tf_cron get_required_tfs mt5_initialize mt5_login
             mt5_account_info mt5_copy_rates_range time_timezone symbols_config
             exchange_config_file) s
    (λ r s' t,
      (∃ k, backtested t = take k (take 2 symbols_config)) ∧
      (result r0 = Ok true →
       (∀ cfg, cfg ∈ take 2 symbols_config →
          ∃ tr, result (backtest_bot_trader NUM_KLINE_INIT tf_cron get_required_tfs cfg
                          (store r0)) = Ok tr) →
       r = Ok (mkTrader <$> take 2 symbols_config) ∧
       backtested t = take 2 symbols_config ∧
       length (backtested t) = Nat.min (length symbols_config) 2) ∧
      (result r0 ≠ Ok true → backtested t = []))) as H; [|exact H].
  unfold start. run_step. eapply post_eq; [reflexivity|]. fold r0.
  destruct (result r0) as [[|]| |] eqn:Hr0.
  - cbn [negb]. do 3 run_step.
    eapply post_mono; [apply (start_loop_run symbols_config 0%nat []); lia|].
    intros r' s' t [(k & Hk) Hall]. cbn [Nat.sub] in *.
    assert (∀ t', backtested (trace r0 ++ [Log INFO MsgStartBacktesting] ++ t ++ t')
                  = backtested t ++ backtested t') as Hbt.
    { intros t'. by rewrite !backtested_app, Hq. }
    destruct r' as [bots| |].
    + do 3 run_step. rewrite Hbt. cbn [backtested omap list_omap backtested_of app].
      rewrite app_nil_r. split_and!; [by exists k| |done].
      intros _ Hok. destruct (Hall Hok) as ([= ->] & -> & _).
      split_and!; [done..|]. rewrite length_take. lia.
    + specialize (Hbt []). rewrite !app_nil_r in Hbt. rewrite Hbt.
      split_and!; [by exists k| |done].
      intros _ Hok. by destruct (Hall Hok) as ([=] & _).
    + specialize (Hbt []). rewrite !app_nil_r in Hbt. rewrite Hbt.
      split_and!; [by exists k| |done].
      intros _ Hok. by destruct (Hall Hok) as ([=] & _).
  - cbn [negb]. do 3 run_step. rewrite !backtested_app, Hq.
    split_and!; [by exists 0%nat|done|done].
  - rewrite Hq. split_and!; [by exists 0%nat|done|done].
  - rewrite Hq. split_and!; [by exists 0%nat|done|done].
Qed.

End Start.

(** ** The monthly data store *)

Section Store.

(** An absent file gives the empty frame with the six columns and a warning. *)
Lemma load_missing_file (sym interval : string) (m y : Z) (s : gmap string csv_file) :
  s !! csv_name sym interval y m = None →
  load_mt5_klines_monthly_data sym interval m y s
  = mkRun (Ok (empty_frame CANDLE_COLS)) s
          [Log WARNING (MsgDataFileNotFound (csv_name sym interval y m))].
Proof. intros Hs. by rewrite load_month_run, Hs. Qed.

(** A file with a header line and no record gives the same frame and a
    warning. *)
Lemma load_header_only_file (sym interval : string) (m y : Z) (h : list string)
    (s : gmap string csv_file) :
  s !! csv_name sym interval y m = Some (CsvTable h []) →
  load_mt5_klines_monthly_data sym interval m y s
  = mkRun (Ok (empty_frame CANDLE_COLS)) s
          [Log WARNING (MsgEmptyDataFile (csv_name sym interval y m))].
Proof. intros Hs. by rewrite load_month_run, Hs. Qed.

(** A file without a header line makes the load raise. *)
Lemma load_table_without_open_time (sym interval : string) (m y : Z)
    (h : list string) (c : Candle) (rs : list Candle) (s : gmap string csv_file) :
  s !! csv_name sym interval y m = Some (CsvTable h (c :: rs)) →
  OPEN_TIME ∉ h →
  load_mt5_klines_monthly_data sym interval m y s
  = mkRun (Raise (KeyError OPEN_TIME)) s [].
Proof.
  intros Hf Hh. rewrite load_month_run, Hf. by rewrite decide_False.
Qed.

Lemma load_blank_file (sym interval : string) (m y : Z) (s : gmap string csv_file) :
  s !! csv_name sym interval y m = Some CsvBlank →
  load_mt5_klines_monthly_data sym interval m y s
  = mkRun (Raise (EmptyDataError (csv_name sym interval y m))) s [].
Proof. intros Hs. by rewrite load_month_run, Hs. Qed.

End Store.

(** ** The definitions at work on the sample data *)

(** Decidable side conditions are settled by evaluation. *)
Ltac by_compute := apply (bool_decide_unpack _); vm_compute; exact I.

(** C8 at a file of zero bytes. The month file of [EURUSD] exists and is
    empty: [pd.read_csv] raises before the test on the number of rows is
    reached, so the load ends with [EmptyDataError] and returns no frame. *)
Theorem load_zero_byte_file_raises :
  load_mt5_klines_monthly_data "EURUSD" "1m" 1 2024 store_blank
  = mkRun (Raise (EmptyDataError "EURUSD-1m-2024-01.csv")) store_blank [].
Proof. vm_compute. reflexivity. Qed.

(** C4 at a file of zero bytes. The one required timeframe has no candle at
    all, fewer than the five of the warm-up. With the month file absent the
    backtest ends as the claim says: two records name the file, the symbol,
    the timeframe and the months, and the [ValueError] names symbol and
    timeframe. With the month file present and empty it ends with the
    [EmptyDataError] of [pd.read_csv] and nothing is logged: no record and no
    error names the timeframe or the shortfall. In both runs the trader is
    built and its strategies initialised, and nothing else is called. *)
Theorem short_timeframe_zero_byte_file_undescribed :
  let absent := backtest_bot_trader 5 cron_1m_1h tfs_of_strategies cfg_1m ∅ in
  let empty := backtest_bot_trader 5 cron_1m_1h tfs_of_strategies cfg_1m store_blank in
  tfs_of_strategies cfg_1m = ["1m"%string] ∧
  candle_count ∅ cfg_1m "1m" = 0%nat ∧
  candle_count store_blank cfg_1m "1m" = 0%nat ∧
  result absent = Raise (ValueError (MsgNoDataAvailable "EURUSD" "1m")) ∧
  trace absent = [TraderNew cfg_1m; TraderInitStrategies;
                  Log WARNING (MsgDataFileNotFound "EURUSD-1m-2024-01.csv");
                  Log ERROR (MsgNoDataFound "EURUSD" "1m" [1])] ∧
  result empty = Raise (EmptyDataError "EURUSD-1m-2024-01.csv") ∧
  trace empty = [TraderNew cfg_1m; TraderInitStrategies].
Proof. vm_compute. by repeat split. Qed.

(** The same with records under a header that does not name ["Open time"]:
    the error is the [KeyError] of line 50, and nothing is logged. *)
Lemma short_timeframe_without_time_column :
  let r := backtest_bot_trader 5 cron_1m_1h tfs_of_strategies cfg_1m
             store_no_time_column in
  candle_count store_no_time_column cfg_1m "1m" = 2%nat ∧
  result r = Raise (KeyError "Open time") ∧
  trace r = [TraderNew cfg_1m; TraderInitStrategies].
Proof. vm_compute. by repeat split. Qed.

(** The last tick of the loop is after [end_time] and hands a candle over:
    with a warm-up of one and candles at 0, 60 and 60 the clock starts at 0
    and ends at 60, the ticks are 60 and 120, and both candles of the replay
    slice are delivered. *)
Lemma last_tick_past_end_delivers :
  let al := aligned_of 1 tfs_of_strategies cfg_1m store_1m_tie in
  al_max_time al = 0 ∧ al_end_time al = 60 ∧
  ticks (al_max_time al) (al_end_time al) = [60; 120] ∧
  fire_count cron_1m_1h "1m" (al_max_time al) (al_end_time al) = 2%nat ∧
  open_time ∘ snd <$>
    delivered "1m" (trace (backtest_bot_trader 1 cron_1m_1h tfs_of_strategies
                             cfg_1m store_1m_tie)) = [60; 60].
Proof. vm_compute. by repeat split. Qed.

(** Rows of equal time keep the order they had in the frame. *)
Lemma sort_rows_ties :
  sort_rows [(0, candle_at 60); (1, candle_at 0); (2, candle_at 60); (3, candle_at 60)]
  = [(1, candle_at 0); (0, candle_at 60); (2, candle_at 60); (3, candle_at 60)].
Proof. reflexivity. Qed.

(** The required files of an entry with a repeated timeframe and two months:
    two timeframes by two months. *)
Lemma required_files_cartesian_witness :
  get_required_data_files [cfg_two_tfs; cfg_1m_dup]
    = ⋃ (symbol_product <$> [cfg_two_tfs; cfg_1m_dup]) ∧
  size (symbol_product cfg_two_tfs) = 4%nat ∧
  get_required_data_files [cfg_two_tfs; cfg_1m]
    = get_required_data_files [cfg_two_tfs; cfg_1m_dup].
Proof.
  destruct (required_files_cartesian [cfg_two_tfs; cfg_1m_dup]) as (H1 & H2 & H3).
  { by_compute. }
  split_and!.
  - exact H1.
  - destruct (H2 cfg_two_tfs) as (_ & _ & ->); [left|]. by vm_compute.
  - apply H3. apply Forall2_cons. split; [done|].
    apply Forall2_cons. split; [|apply Forall2_nil_2].
    split_and!; [done..|]. intros tf. split; intros (st & Hin & Hst).
    + exists (mkStrategy (Some "1m"%string)). split; [by_compute|].
      cbn [strategies cfg_1m_dup] in Hin.
      repeat (apply elem_of_cons in Hin as [->|Hin]); try done.
      by apply elem_of_nil in Hin.
    + exists (mkStrategy (Some "1m"%string)). split; [by_compute|].
      cbn [strategies cfg_1m] in Hin. by apply list_elem_of_singleton in Hin as ->.
Defined.

(** The alignment of three one-minute candles with a warm-up of two: the
    alignment instant is the open time of the second candle. *)
Lemma alignment_global_start_witness :
  al_max_time (aligned_of 2 tfs_of_strategies cfg_1m store_1m) = 60 ∧
  ∃ init replay,
    al_init (aligned_of 2 tfs_of_strategies cfg_1m store_1m) !! "1m"%string = Some init ∧
    al_replay (aligned_of 2 tfs_of_strategies cfg_1m store_1m) !! "1m"%string = Some replay ∧
    df_len init = 2%nat ∧
    (∃ t, last (open_times init) = Some t ∧
          t ≤ al_max_time (aligned_of 2 tfs_of_strategies cfg_1m store_1m)) ∧
    (∀ t, head (open_times replay) = Some t →
          al_max_time (aligned_of 2 tfs_of_strategies cfg_1m store_1m) < t).
Proof.
  split; [by vm_compute|].
  destruct (alignment_global_start 2 tfs_of_strategies cfg_1m store_1m
              (charts_of 2 tfs_of_strategies cfg_1m store_1m)
              (aligned_of 2 tfs_of_strategies cfg_1m store_1m)) as (_ & _ & H);
    [lia|by vm_compute|by vm_compute|].
  apply (H "1m"%string). by_compute.
Defined.

(** C7 as stated fails: with a warm-up of two, the only replay candle of the
    sample keeps the index 2, while the init slice is indexed 0 and 1. *)
Lemma replay_index_starts_at_warmup :
  result (load_charts 2 tfs_of_strategies cfg_1m store_1m)
    = Ok (charts_of 2 tfs_of_strategies cfg_1m store_1m) ∧
  result (align 2 (charts_of 2 tfs_of_strategies cfg_1m store_1m) store_1m)
    = Ok (aligned_of 2 tfs_of_strategies cfg_1m store_1m) ∧
  index <$> al_init (aligned_of 2 tfs_of_strategies cfg_1m store_1m) !! "1m"%string
    = Some [0; 1] ∧
  index <$> al_replay (aligned_of 2 tfs_of_strategies cfg_1m store_1m) !! "1m"%string
    = Some [2] ∧
  ¬ ∃ replay,
      al_replay (aligned_of 2 tfs_of_strategies cfg_1m store_1m) !! "1m"%string
        = Some replay ∧
      head (index replay) = Some 0.
Proof.
  split_and!; [by vm_compute..|].
  intros (replay & Hrep & Hhead). vm_compute in Hrep.
  injection Hrep as <-. by vm_compute in Hhead.
Qed.

Lemma slices_share_one_numbering_witness :
  ∃ init replay,
    al_init (aligned_of 2 tfs_of_strategies cfg_1m store_1m) !! "1m"%string = Some init ∧
    al_replay (aligned_of 2 tfs_of_strategies cfg_1m store_1m) !! "1m"%string = Some replay ∧
    index init = seqZ 0 2 ∧
    head (index init) = Some 0 ∧
    index replay = seqZ 2 (Z.of_nat (df_len replay)) ∧
    (rows replay ≠ [] → head (index replay) = Some 2).
Proof.
  apply (slices_share_one_numbering 2 tfs_of_strategies cfg_1m store_1m
           (charts_of 2 tfs_of_strategies cfg_1m store_1m)
           (aligned_of 2 tfs_of_strategies cfg_1m store_1m) "1m"%string);
    [lia|by vm_compute|by vm_compute|by_compute].
Defined.

(** C1 as stated fails: the trader requires the four-hour timeframe, the
    firing rules cover one minute and one hour; alignment succeeds, the replay
    slice holds two candles and the run hands none of them over. *)
Lemma uncronned_candles_never_delivered :
  result (load_charts 1 tfs_of_strategies cfg_4h store_4h)
    = Ok (charts_of 1 tfs_of_strategies cfg_4h store_4h) ∧
  result (align 1 (charts_of 1 tfs_of_strategies cfg_4h store_4h) store_4h)
    = Ok (aligned_of 1 tfs_of_strategies cfg_4h store_4h) ∧
  "4h"%string ∈ tfs_of_strategies cfg_4h ∧
  df_len <$> al_replay (aligned_of 1 tfs_of_strategies cfg_4h store_4h) !! "4h"%string
    = Some 2%nat ∧
  delivered "4h" (trace (backtest_bot_trader 1 cron_1m_1h tfs_of_strategies
                           cfg_4h store_4h)) = [] ∧
  result (backtest_bot_trader 1 cron_1m_1h tfs_of_strategies cfg_4h store_4h)
    = Ok (mkTrader cfg_4h).
Proof. split_and!; [by vm_compute|by vm_compute|by_compute|by vm_compute..]. Qed.

(** The one-minute timeframe fires at every tick: its two replay candles are
    both handed over, in strictly increasing order of open time. *)
Lemma replay_delivers_fired_prefix_witness :
  ∃ replay,
    al_replay (aligned_of 1 tfs_of_strategies cfg_1m store_1m) !! "1m"%string
      = Some replay ∧
    delivered "1m" (trace (backtest_bot_trader 1 cron_1m_1h tfs_of_strategies
                             cfg_1m store_1m)) = rows replay ∧
    df_len replay = 2%nat ∧
    StronglySorted Z.lt (open_times replay).
Proof.
  destruct (replay_delivers_fired_prefix 1 cron_1m_1h tfs_of_strategies cfg_1m store_1m
              (charts_of 1 tfs_of_strategies cfg_1m store_1m)
              (aligned_of 1 tfs_of_strategies cfg_1m store_1m) "1m"%string)
    as (_ & replay & Hrep & _ & _ & Hstrict & Hall);
    [by_compute|by vm_compute|by vm_compute|by_compute|].
  exists replay. assert (df_len replay = 2%nat) as Hlen.
  { vm_compute in Hrep. injection Hrep as <-. by vm_compute. }
  split_and!; [done| |done|].
  - apply Hall. rewrite Hlen. by_compute.
  - apply Hstrict. by_compute.
Defined.



(** Three candles against a warm-up of five: the backtest raises while
    loading and hands over nothing. *)
Lemma short_timeframe_fails_fast_witness :
  (∃ e tf',
     result (backtest_bot_trader 5 cron_1m_1h tfs_of_strategies cfg_1m store_1m) = Raise e ∧
     tf' ∈ tfs_of_strategies cfg_1m ∧ load_error 5 store_1m cfg_1m tf' e) ∧
  Forall (λ ev, ¬ is_delivery ev)
         (trace (backtest_bot_trader 5 cron_1m_1h tfs_of_strategies cfg_1m store_1m)).
Proof.
  apply (short_timeframe_fails_fast 5 cron_1m_1h tfs_of_strategies cfg_1m store_1m
           "1m"%string); [by_compute|left; by_compute].
Defined.

(** C5 as stated fails: one file is missing, no exchange configuration was
    given, and [ensure_data_files] returns false without a single fetch. *)
Lemma no_provider_no_fetch :
  missing_files [cfg_1m] ∅ = [("EURUSD", "1m", 2024, 1)]%string ∧
  result (ensure_data_files true (λ _ _, true) true terminal_ok 0 [cfg_1m] None ∅)
    = Ok false ∧
  fetches (trace (ensure_data_files true (λ _ _, true) true terminal_ok 0
                    [cfg_1m] None ∅)) = [].
Proof. split_and!; by vm_compute. Qed.

(** Two files are missing and the terminal has bars for one symbol only: both
    are fetched and the verdict is false. *)
Lemma ensure_data_files_verdict_witness :
  length (missing_files [cfg_1m; cfg_gbp] ∅) = 2%nat ∧
  fetches (trace (ensure_data_files true (λ _ _, true) true terminal_eurusd 0
                    [cfg_1m; cfg_gbp] exch_ok ∅))
    ≡ₚ missing_files [cfg_1m; cfg_gbp] ∅ ∧
  result (ensure_data_files true (λ _ _, true) true terminal_eurusd 0
            [cfg_1m; cfg_gbp] exch_ok ∅) = Ok false.
Proof.
  assert (missing_files [cfg_1m; cfg_gbp] ∅
          = [("GBPUSD", "1m", 2024, 1); ("EURUSD", "1m", 2024, 1)]%string) as Hm
    by by vm_compute.
  destruct (ensure_data_files_verdict true (λ _ _, true) true terminal_eurusd 0
              [cfg_1m; cfg_gbp] exch_ok ∅) as (_ & _ & H).
  destruct H as [Hf Hr].
  - by rewrite Hm.
  - by vm_compute.
  - rewrite Hm. repeat constructor; lia.
  - split_and!; [by rewrite Hm|done|]. rewrite Hr. by vm_compute.
Defined.

(** C9 as stated fails: one symbol is configured, its file is missing and
    cannot be fetched; [start] returns without backtesting it. *)
Lemma failed_provisioning_backtests_nothing :
  Nat.min (length [cfg_1m]) 2 = 1%nat ∧
  result (start 1 cron_1m_1h tfs_of_strategies true (λ _ _, true) true terminal_ok 0
            [cfg_1m] None ∅) = Ok [] ∧
  backtested (trace (start 1 cron_1m_1h tfs_of_strategies true (λ _ _, true) true
                       terminal_ok 0 [cfg_1m] None ∅)) = [].
Proof. split_and!; by vm_compute. Qed.

(** Three symbols whose files are all present: the first two are backtested,
    the third is not. *)
Lemma start_backtests_first_two_witness :
  result (start 1 cron_1m_1h tfs_of_strategies true (λ _ _, true) true terminal_ok 0
            cfg_three None store_three) = Ok [mkTrader cfg_1m; mkTrader cfg_gbp] ∧
  backtested (trace (start 1 cron_1m_1h tfs_of_strategies true (λ _ _, true) true
                       terminal_ok 0 cfg_three None store_three)) = [cfg_1m; cfg_gbp] ∧
  length (backtested (trace (start 1 cron_1m_1h tfs_of_strategies true (λ _ _, true)
                               true terminal_ok 0 cfg_three None store_three)))
    = Nat.min (length cfg_three) 2.
Proof.
  destruct (start_backtests_first_two 1 cron_1m_1h tfs_of_strategies true
              (λ _ _, true) true terminal_ok 0 cfg_three None store_three)
    as (_ & H & _).
  apply H; [by vm_compute|].
  intros cfg Hin. cbn [take cfg_three] in Hin.
  repeat (apply elem_of_cons in Hin as [->|Hin]);
    [eexists; by vm_compute..|by apply elem_of_nil in Hin].
Defined.

(** The four-hour timeframe of the sample has no firing rule: the run returns
    normally and never calls [on_kline] for it. *)
Lemma uncronned_timeframe_never_fires_witness :
  (∀ kline, TraderOnKline "4h" kline
            ∉ trace (backtest_bot_trader 1 cron_1m_1h tfs_of_strategies cfg_4h store_4h)) ∧
  delivered "4h" (trace (backtest_bot_trader 1 cron_1m_1h tfs_of_strategies
                           cfg_4h store_4h)) = [] ∧
  result (backtest_bot_trader 1 cron_1m_1h tfs_of_strategies cfg_4h store_4h)
    = Ok (mkTrader cfg_4h).
Proof.
  destruct (uncronned_timeframe_never_fires 1 cron_1m_1h tfs_of_strategies cfg_4h
              store_4h "4h"%string) as (H1 & H2 & H3); [by_compute..|].
  split_and!; [done..|].
  destruct (H3 (charts_of 1 tfs_of_strategies cfg_4h store_4h)
               (aligned_of 1 tfs_of_strategies cfg_4h store_4h)) as [Hr _];
    [by_compute|by vm_compute|by vm_compute|exact Hr].
Defined.
